(** * ikago-client: the command-line entry point of the ikago proxy client

    A shallow embedding of [cmd/ikago-client/main.go]: the helper [splitArg],
    the configuration block, the exclusive [-list-devices] command, the
    parameter verification, the randomized choice of the upstream port and
    the resolution of devices that precede [pcap.Client.Open].

    Go strings are byte sequences and are modelled by [string] (a list of
    [ascii], one per byte).  Go's [int] is modelled by [Z]; the only
    conversion to [uint16] is written out as a reduction modulo 65536. *)

From Stdlib Require Import ZArith List Bool Lia String Ascii.
From Stdlib Require Import Numbers.DecimalString.
Import ListNotations.

Open Scope string_scope.
Open Scope Z_scope.

(* ================================================================== *)
(** ** The two functions of Go's [strings] package used by [splitArg] *)
(* ================================================================== *)

Module GoStrings.

(** [strings.Split(s, sep)] for a separator of one byte: the substrings of
    [s] between the occurrences of [sep], in order; one more substring than
    there are separators, so [Split "" sep] is [[""]]. *)
Fixpoint Split (s : string) (sep : ascii) : list string :=
  match s with
  | EmptyString => [EmptyString]
  | String a rest =>
      if Ascii.eqb a sep then EmptyString :: Split rest sep
      else match Split rest sep with
           | [] => [String a EmptyString]
           | hd :: tl => String a hd :: tl
           end
  end.

(** [strings.TrimLeft] for a cutset of one byte. *)
Fixpoint TrimLeft (s : string) (c : ascii) : string :=
  match s with
  | EmptyString => EmptyString
  | String a rest => if Ascii.eqb a c then TrimLeft rest c else s
  end.

(** [strings.TrimRight] for a cutset of one byte. *)
Fixpoint TrimRight (s : string) (c : ascii) : string :=
  match s with
  | EmptyString => EmptyString
  | String a rest =>
      match TrimRight rest c with
      | EmptyString => if Ascii.eqb a c then EmptyString else String a EmptyString
      | t => String a t
      end
  end.

(** [strings.Trim(s, cutset)] for a cutset of one byte: Go strips the
    trailing bytes first and the leading ones second. *)
Definition Trim (s : string) (c : ascii) : string :=
  TrimLeft (TrimRight s c) c.

(** Number of occurrences of a byte ([strings.Count] for one byte). *)
Fixpoint Count (s : string) (c : ascii) : nat :=
  match s with
  | EmptyString => O
  | String a rest => if Ascii.eqb a c then S (Count rest c) else Count rest c
  end.

(** [s] consists of copies of the byte [c] only. *)
Fixpoint allBytes (c : ascii) (s : string) : bool :=
  match s with
  | EmptyString => true
  | String a rest => Ascii.eqb a c && allBytes c rest
  end.

(** The first byte of [s] is [c]. *)
Definition firstIs (c : ascii) (s : string) : bool :=
  match s with
  | EmptyString => false
  | String a _ => Ascii.eqb a c
  end.

(** The last byte of [s] is [c]. *)
Fixpoint lastIs (c : ascii) (s : string) : bool :=
  match s with
  | EmptyString => false
  | String a EmptyString => Ascii.eqb a c
  | String _ rest => lastIs c rest
  end.

End GoStrings.

(* ================================================================== *)
(** ** [splitArg] (main.go, lines 199-213) *)
(* ================================================================== *)

(** The body of the [for _, str := range strs] loop: one [append]. *)
Definition splitArg_step (result : list string) (str : string) : list string :=
  (result ++ [GoStrings.Trim str " "%char])%list.

Definition splitArg (s : string) : list string :=
  if String.eqb s "" then []
  else
    let result := [] in
    let strs := GoStrings.Split s ","%char in
    fold_left splitArg_step strs result.

(** The words of the description of [splitArg], as a relation between a
    component [comp] and what is returned for it: [out] is [comp] without
    its surrounding spaces. *)
Definition trimmed_of (comp out : string) : Prop :=
  exists l r,
    comp = l ++ out ++ r
    /\ GoStrings.allBytes " "%char l = true
    /\ GoStrings.allBytes " "%char r = true
    /\ GoStrings.firstIs " "%char out = false
    /\ GoStrings.lastIs " "%char out = false.

(** The comma-separated components of [s]: comma-free strings that give
    [s] back when joined by commas. *)
Definition components_of (s : string) (comps : list string) : Prop :=
  String.concat "," comps = s
  /\ Forall (fun c => GoStrings.Count c ","%char = O) comps
  /\ List.length comps = S (GoStrings.Count s ","%char).

(* ================================================================== *)
(** ** Values of the collaborating packages *)
(* ================================================================== *)

(** Go's [error] values as [main] builds them: [errors.New] (also standing
    for the errors returned by the collaborators) and the wrapping
    [fmt.Errorf("<context>: %w", cause)]. *)
Inductive error : Type :=
| errorsNew (text : string)
| fmtErrorf (context : string) (cause : error).

(** The [Error()] text of an error, as the log prints it. *)
Fixpoint Error (e : error) : string :=
  match e with
  | errorsNew text => text
  | fmtErrorf context cause => context ++ ": " ++ Error cause
  end.

(** The pair [(value, err)] returned by a fallible Go call. *)
Inductive result (A : Type) : Type :=
| Ok (a : A)
| Err (err : error).
Arguments Ok {A} a.
Arguments Err {A} err.

(** The verb [%d] of [fmt] applied to an [int]. *)
Definition fmt_d (n : Z) : string := NilZero.string_of_int (Z.to_int n).

(** The conversion [uint16(n)] of an [int]. *)
Definition uint16 (n : Z) : Z := n mod 65536.

Module config.

(** [config.Config], with the fields that the composite literal of
    main.go (lines 56-65) names. *)
Record Config : Type := {
  ListenDevs : list string;
  UpDev : string;
  Method : string;
  Password : string;
  Verbose : bool;
  UpPort : Z;
  Filters : list string;
  Server : string
}.

End config.

Module pcap.

(** [net.IP]: the bytes of an address. *)
Definition IP : Type := list Byte.byte.

Inductive FilterType : Type :=
| FilterTypeIP
| FilterTypeIPPort
| FilterTypePort.

(** Modelled from the spec: the declarations of package [ikago/internal/pcap]
    are not among the sources.  A filter is a variant over by-address,
    by-address-and-port and by-port; a port is a [uint16]. *)
Inductive Filter : Type :=
| IPFilter (ip : IP)
| IPPortFilter (ip : IP) (port : Z)
| PortFilter (port : Z).

(** The method [FilterType()] of the interface [pcap.Filter]. *)
Definition FilterTypeOf (f : Filter) : FilterType :=
  match f with
  | IPFilter _ => FilterTypeIP
  | IPPortFilter _ _ => FilterTypeIPPort
  | PortFilter _ => FilterTypePort
  end.

(** The value returned by [pcap.ParseIPPort]; main.go reads its fields
    [IP] and [Port]. *)
Record IPPort : Type := {
  IPPort_IP : IP;
  IPPort_Port : Z
}.

(** Modelled from the spec: [pcap.Device] is not among the sources.  A
    device has a name, bound addresses, a hardware address and a loopback
    flag. *)
Record Device : Type := {
  Name : string;
  IPAddrs : list IP;
  HardwareAddr : list Byte.byte;
  IsLoop : bool
}.

End pcap.

Module crypto.

(** Modelled from the spec: [crypto.Crypto] is not among the sources.  A
    codec is selected by a method name and keyed by a password. *)
Record Crypto : Type := {
  CryptoMethod : string;
  CryptoPassword : string
}.

End crypto.

Module pcapClient.

(** The composite literal [pcap.Client{...}] of main.go (lines 173-182). *)
Record Client : Type := {
  Filters : list pcap.Filter;
  UpPort : Z;
  ServerIP : pcap.IP;
  ServerPort : Z;
  ListenDevs : list pcap.Device;
  UpDev : pcap.Device;
  GatewayDev : pcap.Device;
  Crypto : crypto.Crypto
}.

End pcapClient.

(** The command-line flags (main.go, lines 20-29), after [flag.Parse]. *)
Record Flags : Type := {
  argListDevs : bool;
  argConfig : string;
  argListenDevs : string;
  argUpDev : string;
  argMethod : string;
  argPassword : string;
  argVerbose : bool;
  argUpPort : Z;
  argFilters : string;
  argServer : string
}.

(** What [main] calls outside of main.go: Go's [math/rand] generator and
    the packages [config], [pcap] and [crypto] of the repository, none of
    which is among the sources.  They are parameters of the model. *)
Record Env : Type := {
  (** the state of a [*rand.Rand] *)
  Rand : Type;
  (** [r.Intn(n)]: the number drawn and the state after the draw *)
  Intn : Rand -> Z -> Z * Rand;
  (** [rand.New(rand.NewSource(time.Now().UnixNano()))] *)
  NewRand : Rand;
  ParseFile : string -> result config.Config;
  FindAllDevs : result (list pcap.Device);
  ParseFilter : string -> result pcap.Filter;
  ParseIPPort : string -> result pcap.IPPort;
  cryptoParse : string -> string -> result crypto.Crypto;
  FindListenDevs : list string -> result (list pcap.Device);
  (** the two devices are pointers, [None] is [nil] *)
  FindUpstreamDevAndGatewayDev :
    string -> result (option pcap.Device * option pcap.Device);
  (** [p.Open()], [None] is a [nil] error *)
  Open : pcapClient.Client -> option error
}.

(* ================================================================== *)
(** ** The process: what it logs and calls, and how it ends *)
(* ================================================================== *)

(** What a run of [main] does that can be observed: the calls to the log,
    and the calls that enumerate, look up or open devices. *)
Inductive Event : Type :=
| LogSetVerbose (verbose : bool)
| LogInfoln (msg : string)
(** [log.Infof("  %s\n", dev)] *)
| LogInfoDevice (dev : pcap.Device)
(** [log.Infof("Proxy from %s through :%d to %s\n", ...)] *)
| LogInfoProxy (filter : pcap.Filter) (upPort : Z) (server : pcap.IPPort)
(** [log.Infof("\n  %s", filter)] *)
| LogInfoFilter (filter : pcap.Filter)
(** [log.Infof(" through :%d to %s\n", ...)] *)
| LogInfoThrough (upPort : Z) (server : pcap.IPPort)
| LogFatalln (msg : string)
| CallFindAllDevs
| CallFindListenDevs (names : list string)
| CallFindUpstreamDevAndGatewayDev (name : string)
| CallOpen (p : pcapClient.Client).

(** A call that enumerates, looks up or opens devices. *)
Definition isDeviceCall (e : Event) : bool :=
  match e with
  | CallFindAllDevs
  | CallFindListenDevs _
  | CallFindUpstreamDevAndGatewayDev _
  | CallOpen _ => true
  | _ => false
  end.

Definition isFatal (e : Event) : bool :=
  match e with
  | LogFatalln _ => true
  | _ => false
  end.

(** How a stretch of the program ends: it goes on with a value, the process
    exits ([os.Exit]), or the loop that chooses the upstream port is still
    running when the fuel of the model is used up. *)
Inductive Outcome (A : Type) : Type :=
| Continue (a : A)
| Exit (status : Z)
| Spinning.
Arguments Continue {A} a.
Arguments Exit {A} status.
Arguments Spinning {A}.

(** A stretch of the program: the events so far and the outcome. *)
Definition Proc (A : Type) : Type := (list Event * Outcome A)%type.

Definition ret {A : Type} (a : A) : Proc A := ([], Continue a).

Definition bind {A B : Type} (m : Proc A) (k : A -> Proc B) : Proc B :=
  match m with
  | (t, Continue a) => let (t', o) := k a in ((t ++ t')%list, o)
  | (t, Exit status) => (t, Exit status)
  | (t, Spinning) => (t, Spinning)
  end.

Notation "x <- m ;; k" := (bind m (fun x => k))
  (at level 61, m at next level, right associativity).
Notation "m ;;; k" := (bind m (fun _ => k))
  (at level 61, right associativity).

Definition emit (e : Event) : Proc unit := ([e], Continue tt).

(** [os.Exit(status)] *)
Definition osExit {A : Type} (status : Z) : Proc A := ([], Exit status).

(** Modelled from the spec: [log.Fatalln] of package [ikago/internal/log] is
    not among the sources.  A fatal error is reported to the operator and
    the process exits with a non-zero status; the status is 1, as after Go's
    own [log.Fatalln]. *)
Definition logFatalln {A : Type} (msg : string) : Proc A :=
  ([LogFatalln msg], Exit 1).

(** [for _, x := range xs { body }] for a body that only has effects. *)
Fixpoint forRange {A : Type} (xs : list A) (body : A -> Proc unit) : Proc unit :=
  match xs with
  | [] => ret tt
  | x :: rest => body x ;;; forRange rest body
  end.

(** The events of a run and its outcome. *)
Definition trace {A : Type} (m : Proc A) : list Event := fst m.
Definition outcome {A : Type} (m : Proc A) : Outcome A := snd m.

(* ================================================================== *)
(** ** [main] (main.go, lines 36-197) *)
(* ================================================================== *)

(** Lines 56-65: the configuration made of the inline flags. *)
Definition flagsConfig (a : Flags) : config.Config :=
  {| config.ListenDevs := splitArg (argListenDevs a);
     config.UpDev := argUpDev a;
     config.Method := argMethod a;
     config.Password := argPassword a;
     config.Verbose := argVerbose a;
     config.UpPort := argUpPort a;
     config.Filters := splitArg (argFilters a);
     config.Server := argServer a |}.

(** Lines 49-66: the configuration. *)
Definition configuration (E : Env) (a : Flags) : Proc config.Config :=
  if negb (String.eqb (argConfig a) "") then
    match ParseFile E (argConfig a) with
    | Err err =>
        logFatalln (Error (fmtErrorf ("parse config file " ++ argConfig a) err))
    | Ok cfg => ret cfg
    end
  else ret (flagsConfig a).

(** Lines 71-82: the exclusive command [-list-devices]. *)
Definition exclusiveCommands (E : Env) (a : Flags) : Proc unit :=
  if argListDevs a then
    emit (LogInfoln "Available devices are listed below, use -listen-devices [devices] or -upstream-device [device] to designate device:") ;;;
    emit CallFindAllDevs ;;;
    match FindAllDevs E with
    | Err err => logFatalln (Error (fmtErrorf "list devices" err))
    | Ok devs =>
        forRange devs (fun dev => emit (LogInfoDevice dev)) ;;;
        osExit 0
    end
  else ret tt.

(** Lines 91-97: the filters are parsed in order and appended to [filters]. *)
Fixpoint parseFilters (E : Env) (strs : list string) (filters : list pcap.Filter)
  : Proc (list pcap.Filter) :=
  match strs with
  | [] => ret filters
  | strFilter :: rest =>
      match ParseFilter E strFilter with
      | Err err =>
          logFatalln (Error (fmtErrorf ("parse filter " ++ strFilter) err))
      | Ok filter => parseFilters E rest (filters ++ [filter])%list
      end
  end.

(** Lines 84-101: the parameters are verified. *)
Definition verifyParameters (E : Env) (cfg : config.Config)
  : Proc (list pcap.Filter) :=
  (if (List.length (config.Filters cfg) <=? 0)%nat
   then logFatalln "Please provide filters by -f [filters]."
   else ret tt) ;;;
  (if String.eqb (config.Server cfg) ""
   then logFatalln "Please provide server by -s [address:port]."
   else ret tt) ;;;
  filters <- parseFilters E (config.Filters cfg) [] ;;
  (if (config.UpPort cfg <? 0) || (config.UpPort cfg >=? 65536)
   then
     logFatalln (A := unit)
       (Error (fmtErrorf ("parse upstream port " ++ fmt_d (config.UpPort cfg))
                         (errorsNew "out of range"))) ;;;
     osExit 1
   else ret tt) ;;;
  ret filters.

(** Lines 111-120: the [switch] on [filter.FilterType()], which says
    whether the flag [exist] is set for this filter.  The assertion of the
    type [PortFilter] is made on a by-port filter only, and the [default]
    case cannot be reached: a filter has one of the three types. *)
Definition portMatches (filter : pcap.Filter) (UpPort : Z) : bool :=
  match pcap.FilterTypeOf filter with
  | pcap.FilterTypeIP | pcap.FilterTypeIPPort => false
  | pcap.FilterTypePort =>
      match filter with
      | pcap.PortFilter Port => Port =? uint16 UpPort
      | _ => false
      end
  end.

(** Lines 109-124: the inner loop over the filters, with its flag [exist]
    and the [break] that leaves the loop once the flag is set. *)
Fixpoint portExists (filters : list pcap.Filter) (UpPort : Z) : bool :=
  match filters with
  | [] => false
  | filter :: rest =>
      let exist := portMatches filter UpPort in
      if exist then true else portExists rest UpPort
  end.

(** Lines 107-128: the loop [for { ... }] that draws a port until none of
    the filters has it.  Go's loop has no bound; [fuel] bounds the number of
    draws of the model and [None] says that the loop is still running. *)
Fixpoint selectUpPort (E : Env) (fuel : nat) (r : Rand E)
  (filters : list pcap.Filter) : option Z :=
  match fuel with
  | O => None
  | S fuel' =>
      let (n, r') := Intn E r 16384 in
      let UpPort := 49152 + n in
      if portExists filters UpPort then selectUpPort E fuel' r' filters
      else Some UpPort
  end.

(** Lines 102-129: the upstream port is randomized when it is configured
    as 0. *)
Definition randomizeUpPort (E : Env) (fuel : nat) (UpPort : Z)
  (filters : list pcap.Filter) : Proc Z :=
  if UpPort =? 0 then
    match selectUpPort E fuel (NewRand E) filters with
    | Some UpPort' => ret UpPort'
    | None => ([], Spinning)
    end
  else ret UpPort.

(** Lines 140-148: the proxy is announced. *)
Definition announce (filters : list pcap.Filter) (UpPort : Z)
  (serverIPPort : pcap.IPPort) : Proc unit :=
  match filters with
  | [filter] => emit (LogInfoProxy filter UpPort serverIPPort)
  | _ =>
      emit (LogInfoln "Proxy:") ;;;
      forRange filters (fun filter => emit (LogInfoFilter filter)) ;;;
      emit (LogInfoThrough UpPort serverIPPort)
  end.

(** Lines 150-170: the devices are found. *)
Definition findDevices (E : Env) (cfg : config.Config)
  : Proc (list pcap.Device * pcap.Device * pcap.Device) :=
  emit (CallFindListenDevs (config.ListenDevs cfg)) ;;;
  listenDevs <-
    match FindListenDevs E (config.ListenDevs cfg) with
    | Err err => logFatalln (Error (fmtErrorf "find listen devices" err))
    | Ok devs => ret devs
    end ;;
  (if (List.length listenDevs <=? 0)%nat
   then logFatalln (Error (fmtErrorf "find listen devices" (errorsNew "cannot determine")))
   else ret tt) ;;;
  emit (CallFindUpstreamDevAndGatewayDev (config.UpDev cfg)) ;;;
  devs <-
    match FindUpstreamDevAndGatewayDev E (config.UpDev cfg) with
    | Err err =>
        logFatalln (Error (fmtErrorf "find upstream device and gateway device" err))
    | Ok devs => ret devs
    end ;;
  match devs with
  | (None, None) =>
      logFatalln (Error (fmtErrorf "find upstream device and gateway device"
                                   (errorsNew "cannot determine")))
  | (None, Some _) =>
      logFatalln (Error (fmtErrorf "find upstream device" (errorsNew "cannot determine")))
  | (Some _, None) =>
      logFatalln (Error (fmtErrorf "find gateway device" (errorsNew "cannot determine")))
  | (Some upDev, Some gatewayDev) => ret (listenDevs, upDev, gatewayDev)
  end.

(** Lines 130-197: the server and the codec are parsed, the devices found
    and the capture opened.  The goroutine that waits for SIGINT and
    SIGTERM is left out: a run of the model receives no signal. *)
Definition resolveAndOpen (E : Env) (cfg : config.Config)
  (filters : list pcap.Filter) (UpPort : Z) : Proc unit :=
  serverIPPort <-
    match ParseIPPort E (config.Server cfg) with
    | Err err => logFatalln (Error (fmtErrorf ("parse server " ++ config.Server cfg) err))
    | Ok ipport => ret ipport
    end ;;
  c <-
    match cryptoParse E (config.Method cfg) (config.Password cfg) with
    | Err err => logFatalln (Error (fmtErrorf "parse crypto" err))
    | Ok c => ret c
    end ;;
  announce filters UpPort serverIPPort ;;;
  devs <- findDevices E cfg ;;
  let '(listenDevs, upDev, gatewayDev) := devs in
  let p :=
    {| pcapClient.Filters := filters;
       pcapClient.UpPort := uint16 UpPort;
       pcapClient.ServerIP := pcap.IPPort_IP serverIPPort;
       pcapClient.ServerPort := pcap.IPPort_Port serverIPPort;
       pcapClient.ListenDevs := listenDevs;
       pcapClient.UpDev := upDev;
       pcapClient.GatewayDev := gatewayDev;
       pcapClient.Crypto := c |} in
  emit (CallOpen p) ;;;
  match Open E p with
  | Some err => logFatalln (Error (fmtErrorf "open pcap" err))
  | None => ret tt
  end.

(** What follows the configuration (lines 68-197). *)
Definition run (E : Env) (fuel : nat) (a : Flags) (cfg : config.Config)
  : Proc unit :=
  emit (LogSetVerbose (config.Verbose cfg)) ;;;
  exclusiveCommands E a ;;;
  filters <- verifyParameters E cfg ;;
  UpPort <- randomizeUpPort E fuel (config.UpPort cfg) filters ;;
  resolveAndOpen E cfg filters UpPort.

Definition main (E : Env) (fuel : nat) (a : Flags) : Proc unit :=
  cfg <- configuration E a ;;
  run E fuel a cfg.

(* ================================================================== *)
(** ** Vocabulary of the properties *)
(* ================================================================== *)

(** The contract of [Intn] in Go's documentation: a number of the half-open
    interval from 0 to [n]. *)
Definition IntnInRange (E : Env) : Prop :=
  forall (r : Rand E) (n : Z), 0 < n -> 0 <= fst (Intn E r n) < n.

(** The generator after [k] draws of [Intn(16384)]. *)
Fixpoint afterDraws (E : Env) (k : nat) (r : Rand E) : Rand E :=
  match k with
  | O => r
  | S k' => afterDraws E k' (snd (Intn E r 16384))
  end.

(** The number drawn by the call of [Intn(16384)] that follows [k] others. *)
Definition nthDraw (E : Env) (k : nat) (r : Rand E) : Z :=
  fst (Intn E (afterDraws E k r) 16384).


(** The trace has no call that enumerates, looks up or opens a device. *)
Definition noDeviceCall (t : list Event) : Prop :=
  existsb isDeviceCall t = false.

(** The run ends in a fatal error, reported with a message that is not
    empty, and in the exit status 1. *)
Definition endsFatal (m : Proc unit) : Prop :=
  exists t msg,
    m = ((t ++ [LogFatalln msg])%list, Exit 1) /\ msg <> "".

(** The same, and no device was enumerated, looked up or opened before. *)
Definition fatalBeforeDevices (m : Proc unit) : Prop :=
  exists t msg,
    m = ((t ++ [LogFatalln msg])%list, Exit 1) /\ msg <> "" /\ noDeviceCall t.

(** The settings that the verification of the parameters refuses: no
    filter, no server, or a port outside of 0..65535. *)
Definition invalidSettings (cfg : config.Config) : Prop :=
  config.Filters cfg = []
  \/ config.Server cfg = ""
  \/ config.UpPort cfg < 0
  \/ 65535 < config.UpPort cfg.

(** One of the filter strings of the configuration is refused by
    [pcap.ParseFilter]. *)
Definition malformedFilter (E : Env) (cfg : config.Config) : Prop :=
  exists strFilter err,
    In strFilter (config.Filters cfg) /\ ParseFilter E strFilter = Err err.

(** The method of the configuration is refused by [crypto.Parse]. *)
Definition unknownMethod (E : Env) (cfg : config.Config) : Prop :=
  exists err, cryptoParse E (config.Method cfg) (config.Password cfg) = Err err.

(** The errors of resolution that are found after the upstream port is
    settled: the server, the method, the listen devices, the upstream and
    the gateway device. *)
Definition resolutionError (E : Env) (cfg : config.Config) : Prop :=
  (exists err, ParseIPPort E (config.Server cfg) = Err err)
  \/ unknownMethod E cfg
  \/ (exists err, FindListenDevs E (config.ListenDevs cfg) = Err err)
  \/ FindListenDevs E (config.ListenDevs cfg) = Ok []
  \/ (exists err, FindUpstreamDevAndGatewayDev E (config.UpDev cfg) = Err err)
  \/ (exists gatewayDev,
        FindUpstreamDevAndGatewayDev E (config.UpDev cfg) = Ok (None, gatewayDev))
  \/ (exists upDev,
        FindUpstreamDevAndGatewayDev E (config.UpDev cfg) = Ok (upDev, None)).

(** The run leaves the loop that chooses the upstream port, given fuel
    enough. *)
Definition leavesPortLoop (E : Env) (a : Flags) : Prop :=
  exists fuel, outcome (main E fuel a) <> Spinning.

(** The header of the list of devices. *)
Definition devicesHeader : string :=
  "Available devices are listed below, use -listen-devices [devices] or -upstream-device [device] to designate device:".

(** What a run with [-list-devices] logs and calls, and how it ends, once
    it has a configuration: only the verbosity of the configuration and the
    enumeration of the devices have a part in it. *)
Definition listing (E : Env) (verbose : bool) : Proc unit :=
  match FindAllDevs E with
  | Ok devs =>
      (([LogSetVerbose verbose; LogInfoln devicesHeader; CallFindAllDevs]
        ++ map LogInfoDevice devs)%list, Exit 0)
  | Err err =>
      ([LogSetVerbose verbose; LogInfoln devicesHeader; CallFindAllDevs;
        LogFatalln ("list devices: " ++ Error err)], Exit 1)
  end.

(** An item as [splitArg] returns it: without a comma, and with a space
    neither in front nor at the end. *)
Definition cleanItem (item : string) : Prop :=
  GoStrings.Count item ","%char = O
  /\ GoStrings.firstIs " "%char item = false
  /\ GoStrings.lastIs " "%char item = false.

(** The composite literal [pcap.Client{...}] that [main] builds at lines
    173-182, as a function of the values that it is made of. *)
Definition newClient (filters : list pcap.Filter) (UpPort : Z)
  (serverIPPort : pcap.IPPort) (listenDevs : list pcap.Device)
  (upDev gatewayDev : pcap.Device) (c : crypto.Crypto) : pcapClient.Client :=
  {| pcapClient.Filters := filters;
     pcapClient.UpPort := uint16 UpPort;
     pcapClient.ServerIP := pcap.IPPort_IP serverIPPort;
     pcapClient.ServerPort := pcap.IPPort_Port serverIPPort;
     pcapClient.ListenDevs := listenDevs;
     pcapClient.UpDev := upDev;
     pcapClient.GatewayDev := gatewayDev;
     pcapClient.Crypto := c |}.

(** The two calls that look up devices, in the order of lines 151 and 158. *)
Definition deviceLookups (cfg : config.Config) : list Event :=
  [CallFindListenDevs (config.ListenDevs cfg);
   CallFindUpstreamDevAndGatewayDev (config.UpDev cfg)].

(* ================================================================== *)
(** ** Stand-ins for the collaborators, to run the model *)
(* ================================================================== *)

Module Stub.

Definition eth0 : pcap.Device :=
  {| pcap.Name := "eth0";
     pcap.IPAddrs := [[Byte.xc0; Byte.xa8; Byte.x01; Byte.x0a]];
     pcap.HardwareAddr := [Byte.x02; Byte.x00; Byte.x00; Byte.x00; Byte.x00; Byte.x01];
     pcap.IsLoop := false |}.

Definition gateway : pcap.Device :=
  {| pcap.Name := "eth0";
     pcap.IPAddrs := [[Byte.xc0; Byte.xa8; Byte.x01; Byte.x01]];
     pcap.HardwareAddr := [Byte.x02; Byte.x00; Byte.x00; Byte.x00; Byte.x00; Byte.xfe];
     pcap.IsLoop := false |}.

(** A filter parser that knows the form [":port"] only. *)
Definition portFilterOnly (s : string) : result pcap.Filter :=
  match s with
  | String ":" (String d digits) =>
      match NilEmpty.uint_of_string (String d digits) with
      | Some u =>
          if Z.of_uint u <? 65536 then Ok (pcap.PortFilter (Z.of_uint u))
          else Err (errorsNew "port out of range")
      | None => Err (errorsNew "invalid port")
      end
  | _ => Err (errorsNew "invalid filter")
  end.

(** A server parser that knows one server. *)
Definition oneServer (s : string) : result pcap.IPPort :=
  if String.eqb s "203.0.113.5:12345" then
    Ok {| pcap.IPPort_IP := [Byte.xcb; Byte.x00; Byte.x71; Byte.x05];
          pcap.IPPort_Port := 12345 |}
  else Err (errorsNew "invalid ip port").

(** A codec constructor that knows the method [plain] only. *)
Definition plainOnly (method password : string) : result crypto.Crypto :=
  if String.eqb method "plain" then
    Ok {| crypto.CryptoMethod := method; crypto.CryptoPassword := password |}
  else Err (errorsNew ("method " ++ method ++ " not support")).

(** An environment with a generator that counts: its state is the next
    number, reduced to the range asked for.  [seed] is its first state,
    [file] what parsing the configuration file gives and [allDevs] what
    the enumeration of the devices gives. *)
Definition env (seed : Z) (file : result config.Config)
  (allDevs : result (list pcap.Device)) : Env :=
  {| Rand := Z;
     Intn := fun r n => (r mod n, r + 1);
     NewRand := seed;
     ParseFile := fun _ => file;
     FindAllDevs := allDevs;
     ParseFilter := portFilterOnly;
     ParseIPPort := oneServer;
     cryptoParse := plainOnly;
     FindListenDevs := fun _ => Ok [eth0];
     FindUpstreamDevAndGatewayDev := fun _ => Ok (Some eth0, Some gateway);
     Open := fun _ => None |}.

Definition noFile : result config.Config := Err (errorsNew "no such file").

(** The flags of a command line with [-list-devices] or not, [-c],
    [-f], [-s] and [-method]. *)
Definition flags (listDevs : bool) (configFile filters server method : string)
  : Flags :=
  {| argListDevs := listDevs;
     argConfig := configFile;
     argListenDevs := "";
     argUpDev := "";
     argMethod := method;
     argPassword := "";
     argVerbose := false;
     argUpPort := 0;
     argFilters := filters;
     argServer := server |}.

(** The numbers [first], [first + 1], ... ([count] of them). *)
Fixpoint upFrom (first : Z) (count : nat) : list Z :=
  match count with
  | O => []
  | S count' => first :: upFrom (first + 1) count'
  end.

(** The ports 49152..65535. *)
Definition ephemeralPorts : list Z := upFrom 49152 (Z.to_nat 16384).

(** A configuration whose filters are [":49152"], ..., [":65535"], whose
    upstream port is left to the program, and with the given server and
    method. *)
Definition coveringConfig (server method : string) : config.Config :=
  {| config.ListenDevs := [];
     config.UpDev := "";
     config.Method := method;
     config.Password := "";
     config.Verbose := false;
     config.UpPort := 0;
     config.Filters := map (fun port => ":" ++ fmt_d port) ephemeralPorts;
     config.Server := server |}.

End Stub.

(** A configuration file that asks for the upstream port 51000 and has a
    by-port filter on the same port. *)
Definition fixedPortConfig : config.Config :=
  {| config.ListenDevs := [];
     config.UpDev := "";
     config.Method := "plain";
     config.Password := "";
     config.Verbose := true;
     config.UpPort := 51000;
     config.Filters := [":51000"];
     config.Server := "203.0.113.5:12345" |}.


(** A message that describes a refusal of the parameters of [cfg]: the
    text that lines 84-101 have for a defect that [cfg] does have, with the
    filter string and the error of the parser, or the port, in it. *)
Definition describesRefusal (E : Env) (cfg : config.Config) (msg : string)
  : Prop :=
  (config.Filters cfg = []
   /\ msg = "Please provide filters by -f [filters].")
  \/ (config.Server cfg = ""
      /\ msg = "Please provide server by -s [address:port].")
  \/ (exists strFilter err,
        In strFilter (config.Filters cfg)
        /\ ParseFilter E strFilter = Err err
        /\ msg = "parse filter " ++ strFilter ++ ": " ++ Error err)
  \/ ((config.UpPort cfg < 0 \/ 65535 < config.UpPort cfg)
      /\ msg = "parse upstream port " ++ fmt_d (config.UpPort cfg)
               ++ ": out of range").

(** A message that describes an error of resolution of [cfg]: the text
    that lines 130-170 have for a step that does fail, with the server
    string and the error of the collaborator in it. *)
Definition describesResolution (E : Env) (cfg : config.Config) (msg : string)
  : Prop :=
  (exists err,
     ParseIPPort E (config.Server cfg) = Err err
     /\ msg = "parse server " ++ config.Server cfg ++ ": " ++ Error err)
  \/ (exists err,
        cryptoParse E (config.Method cfg) (config.Password cfg) = Err err
        /\ msg = "parse crypto: " ++ Error err)
  \/ (exists err,
        FindListenDevs E (config.ListenDevs cfg) = Err err
        /\ msg = "find listen devices: " ++ Error err)
  \/ (FindListenDevs E (config.ListenDevs cfg) = Ok []
      /\ msg = "find listen devices: cannot determine")
  \/ (exists err,
        FindUpstreamDevAndGatewayDev E (config.UpDev cfg) = Err err
        /\ msg = "find upstream device and gateway device: " ++ Error err)
  \/ (FindUpstreamDevAndGatewayDev E (config.UpDev cfg) = Ok (None, None)
      /\ msg = "find upstream device and gateway device: cannot determine")
  \/ (exists gatewayDev,
        FindUpstreamDevAndGatewayDev E (config.UpDev cfg)
        = Ok (None, Some gatewayDev)
        /\ msg = "find upstream device: cannot determine")
  \/ (exists upDev,
        FindUpstreamDevAndGatewayDev E (config.UpDev cfg)
        = Ok (Some upDev, None)
        /\ msg = "find gateway device: cannot determine").

(** The run ends in a fatal error, reported as its last event with a
    message that [describes] holds of, and in the exit status 1. *)
Definition endsDescribing (describes : string -> Prop) (m : Proc unit) : Prop :=
  exists t msg,
    m = ((t ++ [LogFatalln msg])%list, Exit 1) /\ describes msg.

(* ================================================================== *)
(** * Properties *)
(* ================================================================== *)

(** ** [strings.Split] and [strings.Trim] *)

Section SplitFacts.

Variable sep : ascii.

Lemma Split_not_nil (s : string) : GoStrings.Split s sep <> [].
Proof.
  destruct s as [|a rest]; simpl; [discriminate|].
  destruct (Ascii.eqb a sep); [discriminate|].
  destruct (GoStrings.Split rest sep); discriminate.
Qed.

Lemma concat_cons_char (a : ascii) (hd : string) (tl : list string) (j : string) :
  String.concat j (String a hd :: tl) = String a (String.concat j (hd :: tl)).
Proof. destruct tl; reflexivity. Qed.

Lemma concat_Split (s : string) :
  String.concat (String sep EmptyString) (GoStrings.Split s sep) = s.
Proof.
  induction s as [|a rest IH]; simpl; [reflexivity|].
  destruct (Ascii.eqb_spec a sep) as [->|Hne].
  - pose proof (Split_not_nil rest) as Hnn.
    destruct (GoStrings.Split rest sep) as [|hd tl]; [contradiction|].
    rewrite <- IH. reflexivity.
  - pose proof (Split_not_nil rest) as Hnn.
    destruct (GoStrings.Split rest sep) as [|hd tl]; [contradiction|].
    rewrite concat_cons_char, IH. reflexivity.
Qed.

Lemma Split_sep_free (s : string) :
  Forall (fun comp => GoStrings.Count comp sep = O) (GoStrings.Split s sep).
Proof.
  induction s as [|a rest IH]; simpl.
  - constructor; [reflexivity | constructor].
  - destruct (Ascii.eqb a sep) eqn:Ha.
    + constructor; [reflexivity | exact IH].
    + destruct (GoStrings.Split rest sep) as [|hd tl].
      * constructor; [simpl; rewrite Ha; reflexivity | constructor].
      * inversion IH as [|? ? Hhd Htl]; subst.
        constructor; [simpl; rewrite Ha; exact Hhd | exact Htl].
Qed.

Lemma Split_length (s : string) :
  List.length (GoStrings.Split s sep) = S (GoStrings.Count s sep).
Proof.
  induction s as [|a rest IH]; simpl; [reflexivity|].
  destruct (Ascii.eqb a sep).
  - simpl. rewrite IH. reflexivity.
  - pose proof (Split_not_nil rest) as Hnn.
    destruct (GoStrings.Split rest sep) as [|hd tl]; [contradiction|].
    simpl in *. exact IH.
Qed.

End SplitFacts.

Section TrimFacts.

Variable c : ascii.

Lemma TrimRight_cut (s : string) :
  exists r,
    s = (GoStrings.TrimRight s c ++ r)%string
    /\ GoStrings.allBytes c r = true
    /\ GoStrings.lastIs c (GoStrings.TrimRight s c) = false.
Proof.
  induction s as [|a rest (r & Hs & Hr & Hlast)]; simpl.
  - exists EmptyString. repeat split.
  - destruct (GoStrings.TrimRight rest c) as [|b t] eqn:Ht.
    + destruct (Ascii.eqb a c) eqn:Ha.
      * exists (String a rest). simpl in Hs. subst r.
        repeat split. simpl. rewrite Ha, Hr. reflexivity.
      * exists rest. simpl in Hs. subst r.
        repeat split; [exact Hr | simpl; exact Ha].
    + exists r. repeat split; [simpl; rewrite Hs at 1; reflexivity | exact Hr |].
      simpl in *. exact Hlast.
Qed.

Lemma TrimLeft_cut (s : string) :
  exists l,
    s = (l ++ GoStrings.TrimLeft s c)%string
    /\ GoStrings.allBytes c l = true
    /\ GoStrings.firstIs c (GoStrings.TrimLeft s c) = false.
Proof.
  induction s as [|a rest (l & Hs & Hl & Hfirst)]; simpl.
  - exists EmptyString. repeat split.
  - destruct (Ascii.eqb a c) eqn:Ha.
    + exists (String a l). repeat split.
      * simpl. rewrite <- Hs. reflexivity.
      * simpl. rewrite Ha, Hl. reflexivity.
      * exact Hfirst.
    + exists EmptyString. repeat split. simpl. exact Ha.
Qed.

Lemma TrimLeft_keeps_last (s : string) :
  GoStrings.lastIs c s = false ->
  GoStrings.lastIs c (GoStrings.TrimLeft s c) = false.
Proof.
  induction s as [|a rest IH]; [reflexivity|].
  intros Hlast. cbn [GoStrings.TrimLeft].
  destruct (Ascii.eqb a c) eqn:Ha.
  - apply IH. destruct rest; [simpl in Hlast; congruence | exact Hlast].
  - exact Hlast.
Qed.

Lemma append_assoc (s1 s2 s3 : string) :
  ((s1 ++ s2) ++ s3)%string = (s1 ++ (s2 ++ s3))%string.
Proof. induction s1 as [|a s1 IH]; simpl; [|rewrite IH]; reflexivity. Qed.

End TrimFacts.

Lemma Trim_trimmed_of (comp : string) :
  trimmed_of comp (GoStrings.Trim comp " "%char).
Proof.
  unfold trimmed_of, GoStrings.Trim.
  destruct (TrimRight_cut " "%char comp) as (r & Hs & Hr & Hlast).
  destruct (TrimLeft_cut " "%char (GoStrings.TrimRight comp " "%char))
    as (l & Hs' & Hl & Hfirst).
  exists l, r. repeat split; try assumption.
  - rewrite Hs at 1. rewrite Hs' at 1. apply append_assoc.
  - apply TrimLeft_keeps_last. exact Hlast.
Qed.

Lemma fold_splitArg_step (strs acc : list string) :
  fold_left splitArg_step strs acc
  = (acc ++ map (fun str => GoStrings.Trim str " "%char) strs)%list.
Proof.
  revert acc. induction strs as [|str rest IH]; intros acc; simpl.
  - rewrite app_nil_r. reflexivity.
  - rewrite IH. unfold splitArg_step. rewrite <- app_assoc. reflexivity.
Qed.

Lemma splitArg_nonempty (s : string) :
  s <> "" ->
  splitArg s = map (fun str => GoStrings.Trim str " "%char) (GoStrings.Split s ","%char).
Proof.
  intros Hs. unfold splitArg.
  destruct (String.eqb_spec s "") as [->|_]; [contradiction|].
  cbv zeta. apply fold_splitArg_step.
Qed.

Example splitArg_sample :
  splitArg " eth0, eth1 ,,wlan 0 " = ["eth0"; "eth1"; ""; "wlan 0"].
Proof. reflexivity. Qed.

(** C9. [splitArg] of the empty string is the empty list.  Of a string
    that is not empty it is, in order and one for one, the comma-separated
    components of the string (comma-free strings that give the string back
    when joined by commas, one more than there are commas, the empty ones
    between adjacent commas included), each without its surrounding
    spaces. *)
Theorem splitArg_components (s : string) :
  (s = "" -> splitArg s = [])
  /\ (s <> "" ->
      exists comps,
        components_of s comps /\ Forall2 trimmed_of comps (splitArg s)).
Proof.
  split.
  - intros ->. reflexivity.
  - intros Hs. exists (GoStrings.Split s ","%char). split.
    + unfold components_of. repeat split.
      * apply (concat_Split ","%char).
      * apply Split_sep_free.
      * apply Split_length.
    + rewrite (splitArg_nonempty s Hs).
      induction (GoStrings.Split s ","%char) as [|comp rest IH]; simpl.
      * constructor.
      * constructor; [apply Trim_trimmed_of | exact IH].
Qed.

Lemma splitArg_components_witness :
  exists comps,
    components_of "a , b,,c" comps
    /\ Forall2 trimmed_of comps (splitArg "a , b,,c").
Proof.
  apply (proj2 (splitArg_components "a , b,,c")). discriminate.
Defined.

(** ** The choice of the upstream port *)

Lemma uint16_small (n : Z) : 0 <= n < 65536 -> uint16 n = n.
Proof. intros Hn. unfold uint16. apply Z.mod_small. exact Hn. Qed.

Lemma portExists_true (filters : list pcap.Filter) (UpPort : Z) :
  portExists filters UpPort = true
  <-> In (pcap.PortFilter (uint16 UpPort)) filters.
Proof.
  induction filters as [|filter rest IH]; simpl.
  - split; [discriminate | contradiction].
  - destruct filter as [ip | ip port | port]; unfold portMatches; cbn.
    + rewrite IH. split; [auto | intros [Hf | Hin]; [discriminate | exact Hin]].
    + rewrite IH. split; [auto | intros [Hf | Hin]; [discriminate | exact Hin]].
    + destruct (Z.eqb_spec port (uint16 UpPort)) as [-> | Hne].
      * split; auto.
      * rewrite IH. split; [auto | intros [Hf | Hin]; [congruence | exact Hin]].
Qed.

Lemma portExists_false (filters : list pcap.Filter) (UpPort : Z) :
  portExists filters UpPort = false
  <-> ~ In (pcap.PortFilter (uint16 UpPort)) filters.
Proof.
  rewrite <- portExists_true.
  destruct (portExists filters UpPort); split; congruence.
Qed.

Section Selection.

Variable E : Env.
Variable filters : list pcap.Filter.

Lemma selectUpPort_free (fuel : nat) (r : Rand E) (UpPort : Z) :
  selectUpPort E fuel r filters = Some UpPort ->
  portExists filters UpPort = false.
Proof.
  revert r. induction fuel as [|fuel IH]; intros r; cbn [selectUpPort]; [discriminate|].
  destruct (Intn E r 16384) as [n r'].
  destruct (portExists filters (49152 + n)) eqn:Hex.
  - apply IH.
  - intros Heq. assert (Hp : 49152 + n = UpPort) by congruence.
    rewrite <- Hp. exact Hex.
Qed.

Lemma selectUpPort_range (fuel : nat) (r : Rand E) (UpPort : Z) :
  IntnInRange E ->
  selectUpPort E fuel r filters = Some UpPort ->
  49152 <= UpPort <= 65535.
Proof.
  intros Hrange. revert r.
  induction fuel as [|fuel IH]; intros r; cbn [selectUpPort]; [discriminate|].
  pose proof (Hrange r 16384 ltac:(lia)) as Hn.
  destruct (Intn E r 16384) as [n r']. cbn [fst] in Hn.
  destruct (portExists filters (49152 + n)).
  - apply IH.
  - intros Heq. assert (Hp : 49152 + n = UpPort) by congruence. lia.
Qed.

Lemma selectUpPort_more_fuel (fuel fuel' : nat) (r : Rand E) (UpPort : Z) :
  selectUpPort E fuel r filters = Some UpPort ->
  (fuel <= fuel')%nat ->
  selectUpPort E fuel' r filters = Some UpPort.
Proof.
  revert fuel' r. induction fuel as [|fuel IH]; intros fuel' r; cbn [selectUpPort]; [discriminate|].
  intros Hsel Hle. destruct fuel' as [|fuel']; [lia|]. cbn [selectUpPort].
  destruct (Intn E r 16384) as [n r'].
  destruct (portExists filters (49152 + n)).
  - apply IH; [exact Hsel | lia].
  - exact Hsel.
Qed.


End Selection.

Lemma randomizeUpPort_zero (E : Env) (fuel : nat) (filters : list pcap.Filter)
  (UpPort : Z) :
  outcome (randomizeUpPort E fuel 0 filters) = Continue UpPort ->
  selectUpPort E fuel (NewRand E) filters = Some UpPort.
Proof.
  unfold randomizeUpPort, outcome, ret. rewrite Z.eqb_refl.
  destruct (selectUpPort E fuel (NewRand E) filters); cbn [snd]; congruence.
Qed.

(** The counting generator of the stand-in environment keeps to the
    contract of [Intn] and draws every number. *)
Lemma Stub_IntnInRange seed file allDevs :
  IntnInRange (Stub.env seed file allDevs).
Proof.
  intros r n Hn. simpl. apply Z.mod_pos_bound. exact Hn.
Qed.



Example randomizeUpPort_sample :
  randomizeUpPort (Stub.env 48 Stub.noFile (Ok [])) 5 0
    [pcap.PortFilter 49200; pcap.IPFilter [Byte.x0a; Byte.x00; Byte.x00; Byte.x01];
     pcap.PortFilter 49201]
  = ret 49202.
Proof. reflexivity. Qed.

(** The inner loop passes over the filters by address and port: a lone
    filter of this type never keeps a candidate from being chosen. *)
Lemma selectUpPort_ignores_IPPortFilter (E : Env) (fuel : nat) (r : Rand E)
  (ip : pcap.IP) (port : Z) :
  selectUpPort E (S fuel) r [pcap.IPPortFilter ip port]
  = Some (49152 + fst (Intn E r 16384)).
Proof.
  cbn [selectUpPort]. destruct (Intn E r 16384) as [n r']. reflexivity.
Qed.

(** C1. The port that the randomized loop chooses can be the port of a
    by-address-and-port filter: with the only filter 10.0.0.1:49200 and a
    generator whose first draw is 48, the loop chooses 49200 at once.  So
    it is for every generator and every address: when the first candidate
    is the port of the lone by-address-and-port filter, it is chosen, as the
    inner loop compares the candidate with the by-port filters only. *)
Theorem upPort_equal_to_IPPortFilter_port :
  randomizeUpPort (Stub.env 48 Stub.noFile (Ok [])) 1 0
    [pcap.IPPortFilter [Byte.x0a; Byte.x00; Byte.x00; Byte.x01] 49200]
  = ret 49200
  /\ forall (E : Env) (fuel : nat) (ip : pcap.IP),
       randomizeUpPort E (S fuel) 0
         [pcap.IPPortFilter ip (49152 + fst (Intn E (NewRand E) 16384))]
       = ret (49152 + fst (Intn E (NewRand E) 16384)).
Proof.
  split.
  - reflexivity.
  - intros E fuel ip. unfold randomizeUpPort. rewrite Z.eqb_refl.
    rewrite selectUpPort_ignores_IPPortFilter. reflexivity.
Qed.

(** C2. With a by-port filter of port 49200 among the filters, the choice
    of the upstream port (configured as 0) never gives 49200, whatever the
    generator draws and however long the loop runs. *)
Theorem upPort_never_49200 (E : Env) (fuel : nat) (filters : list pcap.Filter) :
  In (pcap.PortFilter 49200) filters ->
  outcome (randomizeUpPort E fuel 0 filters) <> Continue 49200.
Proof.
  intros Hin Hout.
  apply randomizeUpPort_zero, selectUpPort_free in Hout.
  apply portExists_false in Hout. apply Hout. exact Hin.
Qed.

Lemma upPort_never_49200_witness :
  outcome (randomizeUpPort (Stub.env 48 Stub.noFile (Ok [])) 3 0
             [pcap.PortFilter 49200])
  <> Continue 49200.
Proof.
  apply (upPort_never_49200 (Stub.env 48 Stub.noFile (Ok [])) 3
           [pcap.PortFilter 49200]).
  simpl. left. reflexivity.
Defined.

(** C3. With a generator that keeps to the contract of [Intn], the port
    chosen when the upstream port is configured as 0 lies between 49152 and
    65535, bounds included. *)
Theorem upPort_in_ephemeral_range (E : Env) (fuel : nat)
  (filters : list pcap.Filter) (UpPort : Z) :
  IntnInRange E ->
  outcome (randomizeUpPort E fuel 0 filters) = Continue UpPort ->
  49152 <= UpPort <= 65535.
Proof.
  intros Hrange Hout. apply randomizeUpPort_zero in Hout.
  exact (selectUpPort_range E filters fuel (NewRand E) UpPort Hrange Hout).
Qed.

Lemma upPort_in_ephemeral_range_witness :
  49152 <= 49201 <= 65535.
Proof.
  apply (upPort_in_ephemeral_range (Stub.env 48 Stub.noFile (Ok [])) 3
           [pcap.PortFilter 49200] 49201).
  - apply Stub_IntnInRange.
  - reflexivity.
Defined.



(** ** Stretches of the program in sequence *)

Lemma bind_ret_l {A B : Type} (a : A) (k : A -> Proc B) : bind (ret a) k = k a.
Proof. unfold bind, ret. destruct (k a) as [t o]. reflexivity. Qed.

Lemma bind_Continue {A B : Type} (t : list Event) (a : A) (k : A -> Proc B) :
  bind (t, Continue a) k = ((t ++ trace (k a))%list, outcome (k a)).
Proof. unfold bind, trace, outcome. destruct (k a) as [t' o]. reflexivity. Qed.

Lemma bind_emit {B : Type} (e : Event) (k : unit -> Proc B) :
  bind (emit e) k = (e :: trace (k tt), outcome (k tt)).
Proof. unfold emit. rewrite bind_Continue. reflexivity. Qed.

Lemma bind_Exit {A B : Type} (t : list Event) (status : Z) (k : A -> Proc B) :
  bind (t, Exit status) k = (t, Exit status).
Proof. reflexivity. Qed.

Lemma bind_Spinning {A B : Type} (t : list Event) (k : A -> Proc B) :
  bind (t, Spinning) k = (t, Spinning).
Proof. reflexivity. Qed.

(** Runs the stretches whose outcome is known. *)
Ltac run_steps :=
  repeat first
    [ rewrite bind_emit
    | rewrite bind_ret_l
    | rewrite bind_Exit
    | rewrite bind_Spinning
    | rewrite bind_Continue
    | progress cbn [osExit logFatalln ret emit trace outcome fst snd app] ].

Lemma forRange_emit {A : Type} (xs : list A) (f : A -> Event) :
  forRange xs (fun x => emit (f x)) = (map f xs, Continue tt).
Proof.
  induction xs as [|x rest IH]; cbn [forRange map]; [reflexivity|].
  rewrite bind_emit, IH. reflexivity.
Qed.

(** ** The configuration (lines 49-66) *)

Lemma configuration_flags (E : Env) (a : Flags) :
  argConfig a = "" -> configuration E a = ret (flagsConfig a).
Proof. unfold configuration. intros ->. reflexivity. Qed.

Lemma configuration_file (E : Env) (a : Flags) (cfg : config.Config) :
  argConfig a <> "" ->
  ParseFile E (argConfig a) = Ok cfg ->
  configuration E a = ret cfg.
Proof.
  unfold configuration. intros Hc Hp.
  destruct (String.eqb_spec (argConfig a) ""); [contradiction|].
  simpl. rewrite Hp. reflexivity.
Qed.

Lemma configuration_file_error (E : Env) (a : Flags) (err : error) :
  argConfig a <> "" ->
  ParseFile E (argConfig a) = Err err ->
  exists msg, configuration E a = ([LogFatalln msg], Exit 1) /\ msg <> "".
Proof.
  unfold configuration. intros Hc Hp.
  destruct (String.eqb_spec (argConfig a) ""); [contradiction|].
  simpl. rewrite Hp. eexists. split; [reflexivity | discriminate].
Qed.

Lemma configuration_cases (E : Env) (a : Flags) :
  (exists cfg, configuration E a = ret cfg)
  \/ (exists msg err,
        configuration E a = ([LogFatalln msg], Exit 1) /\ msg <> ""
        /\ argConfig a <> "" /\ ParseFile E (argConfig a) = Err err).
Proof.
  destruct (String.eqb_spec (argConfig a) "") as [He|Hne].
  - left. eexists. apply configuration_flags. exact He.
  - destruct (ParseFile E (argConfig a)) as [cfg|err] eqn:Hp.
    + left. exists cfg. apply configuration_file; assumption.
    + right. destruct (configuration_file_error E a err Hne Hp) as (msg & H1 & H2).
      exists msg, err. auto.
Qed.

Lemma main_configured (E : Env) (fuel : nat) (a : Flags) (cfg : config.Config) :
  configuration E a = ret cfg -> main E fuel a = run E fuel a cfg.
Proof. intros Hc. unfold main. rewrite Hc. apply bind_ret_l. Qed.

Lemma main_not_configured (E : Env) (fuel : nat) (a : Flags) (msg : string) :
  configuration E a = ([LogFatalln msg], Exit 1) ->
  main E fuel a = ([LogFatalln msg], Exit 1).
Proof. intros Hc. unfold main. rewrite Hc. reflexivity. Qed.

(** ** The exclusive command (lines 71-82) *)

Lemma run_listing (E : Env) (fuel : nat) (a : Flags) (cfg : config.Config) :
  argListDevs a = true ->
  run E fuel a cfg = listing E (config.Verbose cfg).
Proof.
  intros Hl. unfold run, exclusiveCommands, listing. rewrite Hl.
  destruct (FindAllDevs E) as [devs|err].
  - rewrite forRange_emit. run_steps. rewrite app_nil_r. reflexivity.
  - run_steps. reflexivity.
Qed.

(** ** The verification of the parameters (lines 84-101) *)

Lemma parseFilters_ok (E : Env) (strs : list string) (fs acc : list pcap.Filter) :
  Forall2 (fun str f => ParseFilter E str = Ok f) strs fs ->
  parseFilters E strs acc = ret (acc ++ fs)%list.
Proof.
  intros Hall. revert acc.
  induction Hall as [|str f strs fs Hp _ IH]; intros acc; simpl.
  - rewrite app_nil_r. reflexivity.
  - rewrite Hp, IH, <- app_assoc. reflexivity.
Qed.

Lemma parseFilters_cases (E : Env) (strs : list string) (acc : list pcap.Filter) :
  (exists fs,
     Forall2 (fun str f => ParseFilter E str = Ok f) strs fs
     /\ parseFilters E strs acc = ret (acc ++ fs)%list)
  \/ (exists msg,
        parseFilters E strs acc = ([LogFatalln msg], Exit 1) /\ msg <> "").
Proof.
  revert acc. induction strs as [|str rest IH]; intros acc; simpl.
  - left. exists []. split; [constructor | rewrite app_nil_r; reflexivity].
  - destruct (ParseFilter E str) as [f|err] eqn:Hp.
    + destruct (IH (acc ++ [f])%list) as [(fs & Hall & Heq) | (msg & Heq & Hmsg)].
      * left. exists (f :: fs). split; [constructor; assumption|].
        rewrite Heq, <- app_assoc. reflexivity.
      * right. exists msg. auto.
    + right. eexists. split; [reflexivity | discriminate].
Qed.

Lemma Forall2_parsed_no_error (E : Env) (strs : list string) (fs : list pcap.Filter) :
  Forall2 (fun str f => ParseFilter E str = Ok f) strs fs ->
  forall str err, In str strs -> ParseFilter E str <> Err err.
Proof.
  induction 1 as [|str f strs fs Hp _ IH]; intros s err Hin; simpl in Hin.
  - contradiction.
  - destruct Hin as [<- | Hin]; [congruence | apply IH; exact Hin].
Qed.

(** The verification either passes, without a word to the log, on settings
    that are valid and filters that all parse, or ends in a fatal error. *)
Lemma verifyParameters_cases (E : Env) (cfg : config.Config) :
  (exists filters,
     verifyParameters E cfg = ret filters
     /\ ~ invalidSettings cfg /\ ~ malformedFilter E cfg)
  \/ (exists msg,
        verifyParameters E cfg = ([LogFatalln msg], Exit 1) /\ msg <> "").
Proof.
  unfold verifyParameters.
  destruct (config.Filters cfg) as [|str0 strs] eqn:Hf.
  { right. eexists. split; [reflexivity | discriminate]. }
  cbn [List.length Nat.leb]. rewrite bind_ret_l.
  destruct (String.eqb_spec (config.Server cfg) "") as [Hs|Hs].
  { right. eexists. split; [reflexivity | discriminate]. }
  rewrite bind_ret_l.
  destruct (parseFilters_cases E (str0 :: strs) [])
    as [(fs & Hall & Heq) | (msg & Heq & Hmsg)].
  - rewrite Heq, bind_ret_l.
    destruct (Z.ltb_spec (config.UpPort cfg) 0) as [Hlo|Hlo].
    { right. eexists. split; [reflexivity | discriminate]. }
    destruct (Z.geb_spec (config.UpPort cfg) 65536) as [Hhi|Hhi].
    { right. eexists. split; [reflexivity | discriminate]. }
    left. exists fs. split; [reflexivity|]. split.
    + unfold invalidSettings. rewrite Hf. intros [H|[H|[H|H]]];
        [discriminate | contradiction | lia | lia].
    + intros (s & err & Hin & Herr). rewrite Hf in Hin.
      exact (Forall2_parsed_no_error E _ _ Hall s err Hin Herr).
  - right. exists msg. rewrite Heq. auto.
Qed.

Lemma verifyParameters_refuses (E : Env) (cfg : config.Config) :
  invalidSettings cfg \/ malformedFilter E cfg ->
  exists msg,
    verifyParameters E cfg = ([LogFatalln msg], Exit 1) /\ msg <> "".
Proof.
  intros Hbad.
  destruct (verifyParameters_cases E cfg) as [(fs & _ & Hv & Hm) | Hfatal].
  - destruct Hbad; contradiction.
  - exact Hfatal.
Qed.

Lemma verifyParameters_ok (E : Env) (cfg : config.Config) (fs : list pcap.Filter) :
  config.Filters cfg <> [] ->
  config.Server cfg <> "" ->
  0 <= config.UpPort cfg < 65536 ->
  Forall2 (fun str f => ParseFilter E str = Ok f) (config.Filters cfg) fs ->
  verifyParameters E cfg = ret fs.
Proof.
  intros Hf Hs Hp Hall. unfold verifyParameters.
  destruct (config.Filters cfg) as [|str0 strs] eqn:Hfs; [contradiction|].
  cbn [List.length Nat.leb]. rewrite bind_ret_l.
  destruct (String.eqb_spec (config.Server cfg) ""); [contradiction|].
  rewrite bind_ret_l.
  rewrite (parseFilters_ok E _ fs [] Hall). cbn [app]. rewrite bind_ret_l.
  destruct (Z.ltb_spec (config.UpPort cfg) 0); [lia|].
  destruct (Z.geb_spec (config.UpPort cfg) 65536); [lia|].
  reflexivity.
Qed.

(** ** The upstream port inside of [main] (lines 102-129) *)

Lemma randomizeUpPort_cases (E : Env) (fuel : nat) (UpPort : Z)
  (filters : list pcap.Filter) :
  (exists UpPort', randomizeUpPort E fuel UpPort filters = ret UpPort')
  \/ randomizeUpPort E fuel UpPort filters = ([], Spinning).
Proof.
  unfold randomizeUpPort. destruct (UpPort =? 0); [|eauto].
  destruct (selectUpPort E fuel (NewRand E) filters); eauto.
Qed.

Lemma randomizeUpPort_more_fuel (E : Env) (fuel fuel' : nat) (UpPort UpPort' : Z)
  (filters : list pcap.Filter) :
  randomizeUpPort E fuel UpPort filters = ret UpPort' ->
  (fuel <= fuel')%nat ->
  randomizeUpPort E fuel' UpPort filters = ret UpPort'.
Proof.
  unfold randomizeUpPort. destruct (UpPort =? 0); [|auto].
  destruct (selectUpPort E fuel (NewRand E) filters) as [p|] eqn:Hsel;
    [|discriminate].
  intros Heq Hle.
  rewrite (selectUpPort_more_fuel E filters fuel fuel' _ p Hsel Hle).
  exact Heq.
Qed.

(** When every port of 49152..65535 has a by-port filter, the loop never
    ends. *)
Lemma selectUpPort_spins (E : Env) (filters : list pcap.Filter) :
  IntnInRange E ->
  (forall port, 49152 <= port <= 65535 -> In (pcap.PortFilter port) filters) ->
  forall fuel r, selectUpPort E fuel r filters = None.
Proof.
  intros Hrange Hcover.
  induction fuel as [|fuel IH]; intros r; cbn [selectUpPort]; [reflexivity|].
  pose proof (Hrange r 16384 ltac:(lia)) as Hn.
  destruct (Intn E r 16384) as [n r']. cbn [fst] in Hn.
  assert (Hex : portExists filters (49152 + n) = true).
  { apply portExists_true. rewrite uint16_small by lia. apply Hcover. lia. }
  rewrite Hex. apply IH.
Qed.

(** ** The resolution (lines 130-170) and the opening (lines 172-197) *)

Lemma announce_continues (filters : list pcap.Filter) (UpPort : Z)
  (serverIPPort : pcap.IPPort) :
  exists t,
    announce filters UpPort serverIPPort = (t, Continue tt) /\ noDeviceCall t.
Proof.
  unfold announce, noDeviceCall.
  assert (Hmany :
    exists t,
      (emit (LogInfoln "Proxy:") ;;;
       forRange filters (fun filter => emit (LogInfoFilter filter)) ;;;
       emit (LogInfoThrough UpPort serverIPPort)) = (t, Continue tt)
      /\ existsb isDeviceCall t = false).
  { rewrite forRange_emit. run_steps. eexists. split; [reflexivity|].
    cbn [existsb isDeviceCall orb]. rewrite existsb_app.
    cbn [existsb isDeviceCall orb]. rewrite orb_false_r.
    induction filters as [|f rest IH]; [reflexivity | exact IH]. }
  destruct filters as [|f [|f' rest]]; try exact Hmany.
  eexists. split; reflexivity.
Qed.

(** An unknown method, like a server that does not parse, ends the
    resolution before any device is looked up. *)
Lemma resolveAndOpen_unknownMethod (E : Env) (cfg : config.Config)
  (filters : list pcap.Filter) (UpPort : Z) :
  unknownMethod E cfg ->
  exists msg,
    resolveAndOpen E cfg filters UpPort = ([LogFatalln msg], Exit 1)
    /\ msg <> "".
Proof.
  intros (err & Herr). unfold resolveAndOpen.
  destruct (ParseIPPort E (config.Server cfg)) as [ipport|err'].
  - rewrite Herr. run_steps. eexists. split; [reflexivity | discriminate].
  - run_steps. eexists. split; [reflexivity | discriminate].
Qed.

(** ** [main] without [-list-devices], stretch by stretch *)

Section Run.

Variable E : Env.
Variable fuel : nat.
Variable a : Flags.
Variable cfg : config.Config.
Hypothesis not_listing : argListDevs a = false.

Lemma run_refused (msg : string) :
  verifyParameters E cfg = ([LogFatalln msg], Exit 1) ->
  run E fuel a cfg
  = ([LogSetVerbose (config.Verbose cfg); LogFatalln msg], Exit 1).
Proof.
  intros Hv. unfold run, exclusiveCommands. rewrite not_listing, Hv.
  run_steps. reflexivity.
Qed.

Lemma run_spinning (filters : list pcap.Filter) :
  verifyParameters E cfg = ret filters ->
  randomizeUpPort E fuel (config.UpPort cfg) filters = ([], Spinning) ->
  run E fuel a cfg = ([LogSetVerbose (config.Verbose cfg)], Spinning).
Proof.
  intros Hv Hr. unfold run, exclusiveCommands. rewrite not_listing, Hv.
  run_steps. rewrite Hr. run_steps. reflexivity.
Qed.

Lemma run_resolving (filters : list pcap.Filter) (UpPort : Z) :
  verifyParameters E cfg = ret filters ->
  randomizeUpPort E fuel (config.UpPort cfg) filters = ret UpPort ->
  run E fuel a cfg
  = (LogSetVerbose (config.Verbose cfg)
       :: trace (resolveAndOpen E cfg filters UpPort),
     outcome (resolveAndOpen E cfg filters UpPort)).
Proof.
  intros Hv Hr. unfold run, exclusiveCommands. rewrite not_listing, Hv.
  run_steps. rewrite Hr. run_steps. reflexivity.
Qed.

End Run.

Lemma run_same_listing_flag (E : Env) (fuel : nat) (a a' : Flags)
  (cfg : config.Config) :
  argListDevs a' = argListDevs a ->
  run E fuel a' cfg = run E fuel a cfg.
Proof. intros Hl. unfold run, exclusiveCommands. rewrite Hl. reflexivity. Qed.

(** ** A configuration whose filters take every port of 49152..65535 *)

Lemma In_upFrom (count : nat) (first port : Z) :
  In port (Stub.upFrom first count)
  <-> first <= port < first + Z.of_nat count.
Proof.
  revert first. induction count as [|count IH]; intros first.
  - simpl. lia.
  - cbn [Stub.upFrom In]. rewrite IH. lia.
Qed.

Lemma ephemeralPorts_parse (port : Z) :
  In port Stub.ephemeralPorts ->
  Stub.portFilterOnly (":" ++ fmt_d port) = Ok (pcap.PortFilter port).
Proof.
  assert (Hall :
    forallb
      (fun p =>
         match Stub.portFilterOnly (":" ++ fmt_d p) with
         | Ok (pcap.PortFilter q) => q =? p
         | _ => false
         end) Stub.ephemeralPorts = true) by (vm_compute; reflexivity).
  intros Hin. rewrite forallb_forall in Hall. specialize (Hall port Hin).
  destruct (Stub.portFilterOnly (":" ++ fmt_d port)) as [[ip|ip q|q]|err];
    try discriminate.
  apply Z.eqb_eq in Hall. subst q. reflexivity.
Qed.

Lemma covering_filters_parse seed file allDevs (ports : list Z) :
  (forall port, In port ports -> In port Stub.ephemeralPorts) ->
  Forall2 (fun str f => ParseFilter (Stub.env seed file allDevs) str = Ok f)
    (map (fun port => ":" ++ fmt_d port) ports)
    (map pcap.PortFilter ports).
Proof.
  induction ports as [|port ports IH]; intros Hin; cbn [map].
  - constructor.
  - constructor.
    + apply ephemeralPorts_parse. apply Hin. left. reflexivity.
    + apply IH. intros q Hq. apply Hin. right. exact Hq.
Qed.

Lemma coveringConfig_verified seed file allDevs (a : ascii) (server method : string) :
  verifyParameters (Stub.env seed file allDevs)
    (Stub.coveringConfig (String a server) method)
  = ret (map pcap.PortFilter Stub.ephemeralPorts).
Proof.
  apply verifyParameters_ok.
  - cbn [Stub.coveringConfig config.Filters]. intros Hnil.
    assert (Hin : In (":" ++ fmt_d 49152)
                    (map (fun port => ":" ++ fmt_d port) Stub.ephemeralPorts)).
    { apply (in_map (fun port => ":" ++ fmt_d port) Stub.ephemeralPorts 49152).
      apply In_upFrom. lia. }
    rewrite Hnil in Hin. contradiction.
  - discriminate.
  - cbn [Stub.coveringConfig config.UpPort]. lia.
  - apply covering_filters_parse. auto.
Qed.

(** With these filters and the upstream port left to the program, a run
    never leaves the loop that chooses the port: whatever the server and
    the method are, nothing is reported and the process does not exit. *)
Lemma coveringConfig_spins seed allDevs (a : ascii) (server method : string)
  (fuel : nat) :
  main (Stub.env seed (Ok (Stub.coveringConfig (String a server) method)) allDevs)
    fuel (Stub.flags false "ikago.json" "" "" "plain")
  = ([LogSetVerbose false], Spinning).
Proof.
  rewrite (main_configured _ _ _ (Stub.coveringConfig (String a server) method))
    by reflexivity.
  apply run_spinning with (filters := map pcap.PortFilter Stub.ephemeralPorts).
  - reflexivity.
  - apply coveringConfig_verified.
  - unfold randomizeUpPort. cbn [Stub.coveringConfig config.UpPort Z.eqb].
    rewrite selectUpPort_spins; [reflexivity | apply Stub_IntnInRange |].
    intros port Hport. apply in_map. apply In_upFrom. lia.
Qed.

(** ** Fatal errors and the devices *)

Lemma fatal_after_verbosity (verbose : bool) (msg : string) :
  msg <> "" ->
  fatalBeforeDevices ([LogSetVerbose verbose; LogFatalln msg], Exit 1).
Proof.
  intros Hmsg. exists [LogSetVerbose verbose], msg.
  repeat split; [exact Hmsg].
Qed.

Lemma fatalBeforeDevices_endsFatal (m : Proc unit) :
  fatalBeforeDevices m -> endsFatal m.
Proof. intros (t & msg & Hm & Hmsg & _). exists t, msg. auto. Qed.

Lemma Exit_0_not_fatal (t : list Event) : ~ endsFatal (t, Exit 0).
Proof. intros (t' & msg & Heq & _). discriminate. Qed.

Lemma refused_fatal_before_devices (E : Env) (fuel : nat) (a : Flags)
  (cfg : config.Config) :
  argListDevs a = false ->
  configuration E a = ret cfg ->
  invalidSettings cfg \/ malformedFilter E cfg ->
  fatalBeforeDevices (main E fuel a).
Proof.
  intros Hl Hc Hbad.
  destruct (verifyParameters_refuses E cfg Hbad) as (msg & Hv & Hmsg).
  rewrite (main_configured E fuel a cfg Hc).
  rewrite (run_refused E fuel a cfg Hl msg Hv).
  apply fatal_after_verbosity. exact Hmsg.
Qed.

(** A run without [-list-devices] that leaves the port loop with some fuel
    ends, with that fuel and with more, as the resolution and the opening
    end. *)
Lemma resolving_from (E : Env) (a : Flags) (cfg : config.Config)
  (filters : list pcap.Filter) :
  argListDevs a = false ->
  configuration E a = ret cfg ->
  verifyParameters E cfg = ret filters ->
  leavesPortLoop E a ->
  exists fuel UpPort,
    forall fuel', (fuel <= fuel')%nat ->
      main E fuel' a
      = (LogSetVerbose (config.Verbose cfg)
           :: trace (resolveAndOpen E cfg filters UpPort),
         outcome (resolveAndOpen E cfg filters UpPort)).
Proof.
  intros Hl Hc Hv (fuel & Hleaves).
  rewrite (main_configured E fuel a cfg Hc) in Hleaves.
  destruct (randomizeUpPort_cases E fuel (config.UpPort cfg) filters)
    as [(UpPort & Hr) | Hr].
  - exists fuel, UpPort. intros fuel' Hle.
    rewrite (main_configured E fuel' a cfg Hc).
    apply run_resolving; [exact Hl | exact Hv |].
    exact (randomizeUpPort_more_fuel E fuel fuel' _ _ filters Hr Hle).
  - rewrite (run_spinning E fuel a cfg Hl filters Hv Hr) in Hleaves.
    contradiction Hleaves. reflexivity.
Qed.

(** C4, as the code has it.  Without [-list-devices], a configuration with
    no filter, or with no server, or with an upstream port outside of
    0..65535 ends the process in a fatal error, reported with a message,
    and in the exit status 1, before any device is enumerated, looked up or
    opened. *)
Theorem invalid_settings_fatal_before_devices (E : Env) (fuel : nat)
  (a : Flags) (cfg : config.Config) :
  argListDevs a = false ->
  configuration E a = ret cfg ->
  invalidSettings cfg ->
  fatalBeforeDevices (main E fuel a).
Proof.
  intros Hl Hc Hbad.
  apply (refused_fatal_before_devices E fuel a cfg Hl Hc). left. exact Hbad.
Qed.

Lemma invalid_settings_fatal_before_devices_witness :
  fatalBeforeDevices
    (main (Stub.env 0 Stub.noFile (Ok [Stub.eth0])) 0
       (Stub.flags false "" "" "" "plain")).
Proof.
  apply (invalid_settings_fatal_before_devices
           (Stub.env 0 Stub.noFile (Ok [Stub.eth0])) 0
           (Stub.flags false "" "" "" "plain")
           (flagsConfig (Stub.flags false "" "" "" "plain"))).
  - reflexivity.
  - reflexivity.
  - left. reflexivity.
Defined.

(** C4 as stated fails: with [-list-devices], a configuration with no
    filter and no server is not refused; the devices are enumerated and the
    process exits with the status 0. *)
Lemma invalid_settings_listing_exits_0 :
  configuration (Stub.env 0 Stub.noFile (Ok [Stub.eth0]))
    (Stub.flags true "" "" "" "plain")
  = ret (flagsConfig (Stub.flags true "" "" "" "plain"))
  /\ invalidSettings (flagsConfig (Stub.flags true "" "" "" "plain"))
  /\ main (Stub.env 0 Stub.noFile (Ok [Stub.eth0])) 0
       (Stub.flags true "" "" "" "plain")
     = ([LogSetVerbose false; LogInfoln devicesHeader; CallFindAllDevs;
         LogInfoDevice Stub.eth0], Exit 0)
  /\ ~ fatalBeforeDevices
         (main (Stub.env 0 Stub.noFile (Ok [Stub.eth0])) 0
            (Stub.flags true "" "" "" "plain")).
Proof.
  split; [reflexivity|]. split; [left; reflexivity|].
  split; [reflexivity|].
  intros Hfatal. apply fatalBeforeDevices_endsFatal in Hfatal.
  exact (Exit_0_not_fatal _ Hfatal).
Qed.

(** C5, as the code has it.  Without [-list-devices], a configuration with
    a filter string that does not parse ends the process in a fatal error
    and the exit status 1 before any device is enumerated, looked up or
    opened; so does a configuration with an unknown method, in every run
    that leaves the loop choosing the upstream port. *)
Theorem malformed_or_unknown_fatal_before_devices (E : Env) (a : Flags)
  (cfg : config.Config) :
  argListDevs a = false ->
  configuration E a = ret cfg ->
  (malformedFilter E cfg ->
   forall fuel, fatalBeforeDevices (main E fuel a))
  /\ (unknownMethod E cfg ->
      leavesPortLoop E a ->
      exists fuel, forall fuel', (fuel <= fuel')%nat ->
        fatalBeforeDevices (main E fuel' a)).
Proof.
  intros Hl Hc. split.
  - intros Hbad fuel.
    apply (refused_fatal_before_devices E fuel a cfg Hl Hc). right. exact Hbad.
  - intros Hmethod Hleaves.
    destruct (verifyParameters_cases E cfg)
      as [(filters & Hv & _) | (msg & Hv & Hmsg)].
    + destruct (resolving_from E a cfg filters Hl Hc Hv Hleaves)
        as (fuel & UpPort & Hmain).
      destruct (resolveAndOpen_unknownMethod E cfg filters UpPort Hmethod)
        as (msg & Hres & Hmsg).
      exists fuel. intros fuel' Hle. rewrite (Hmain fuel' Hle), Hres.
      apply fatal_after_verbosity. exact Hmsg.
    + exists O. intros fuel' _.
      rewrite (main_configured E fuel' a cfg Hc).
      rewrite (run_refused E fuel' a cfg Hl msg Hv).
      apply fatal_after_verbosity. exact Hmsg.
Qed.

Lemma malformed_or_unknown_fatal_before_devices_witness :
  (forall fuel,
     fatalBeforeDevices
       (main (Stub.env 0 Stub.noFile (Ok [Stub.eth0])) fuel
          (Stub.flags false "" ":80,bogus" "203.0.113.5:12345" "plain")))
  /\ (exists fuel, forall fuel', (fuel <= fuel')%nat ->
        fatalBeforeDevices
          (main (Stub.env 0 Stub.noFile (Ok [Stub.eth0])) fuel'
             (Stub.flags false "" ":80" "203.0.113.5:12345" "rot13"))).
Proof.
  split.
  - apply (malformed_or_unknown_fatal_before_devices
             (Stub.env 0 Stub.noFile (Ok [Stub.eth0]))
             (Stub.flags false "" ":80,bogus" "203.0.113.5:12345" "plain")
             (flagsConfig
                (Stub.flags false "" ":80,bogus" "203.0.113.5:12345" "plain"))).
    + reflexivity.
    + reflexivity.
    + exists "bogus", (errorsNew "invalid filter").
      split; [right; left; reflexivity | reflexivity].
  - apply (malformed_or_unknown_fatal_before_devices
             (Stub.env 0 Stub.noFile (Ok [Stub.eth0]))
             (Stub.flags false "" ":80" "203.0.113.5:12345" "rot13")
             (flagsConfig
                (Stub.flags false "" ":80" "203.0.113.5:12345" "rot13"))).
    + reflexivity.
    + reflexivity.
    + eexists. reflexivity.
    + exists 1%nat. vm_compute. discriminate.
Defined.

(** C5 as stated fails twice.  With [-list-devices], a configuration with a
    filter string that does not parse and an unknown method is not refused:
    the devices are enumerated and the process exits with the status 0.
    And without it, when the filters take every port of 49152..65535 and
    the upstream port is left to the program, an unknown method is never
    reported: the loop that chooses the port does not end. *)
Lemma malformed_or_unknown_not_fatal :
  (malformedFilter (Stub.env 0 Stub.noFile (Ok [Stub.eth0]))
     (flagsConfig (Stub.flags true "" "bogus" "203.0.113.5:12345" "rot13"))
   /\ unknownMethod (Stub.env 0 Stub.noFile (Ok [Stub.eth0]))
        (flagsConfig (Stub.flags true "" "bogus" "203.0.113.5:12345" "rot13"))
   /\ main (Stub.env 0 Stub.noFile (Ok [Stub.eth0])) 0
        (Stub.flags true "" "bogus" "203.0.113.5:12345" "rot13")
      = ([LogSetVerbose false; LogInfoln devicesHeader; CallFindAllDevs;
          LogInfoDevice Stub.eth0], Exit 0))
  /\ (unknownMethod
        (Stub.env 0 (Ok (Stub.coveringConfig "203.0.113.5:12345" "rot13"))
           (Ok [Stub.eth0]))
        (Stub.coveringConfig "203.0.113.5:12345" "rot13")
      /\ forall fuel,
           main (Stub.env 0 (Ok (Stub.coveringConfig "203.0.113.5:12345" "rot13"))
                   (Ok [Stub.eth0]))
             fuel (Stub.flags false "ikago.json" "" "" "plain")
           = ([LogSetVerbose false], Spinning)).
Proof.
  split; [split; [|split] | split].
  - exists "bogus", (errorsNew "invalid filter").
    split; [left; reflexivity | reflexivity].
  - eexists. reflexivity.
  - reflexivity.
  - eexists. reflexivity.
  - intros fuel. apply coveringConfig_spins.
Qed.

(** C8, as the code has it.  With [-list-devices] and a configuration, the
    devices are enumerated before any parameter is verified, and nothing of
    the configuration but its verbosity has a part in the run: no filter, no
    server, a port out of range or a filter string that does not parse
    causes no error.  When the enumeration succeeds, the process exits with
    the status 0 and no fatal error is logged. *)
Theorem listing_precedes_verification (E : Env) (fuel : nat) (a : Flags)
  (cfg : config.Config) :
  argListDevs a = true ->
  configuration E a = ret cfg ->
  main E fuel a = listing E (config.Verbose cfg)
  /\ In CallFindAllDevs (trace (main E fuel a))
  /\ (forall devs,
        FindAllDevs E = Ok devs ->
        outcome (main E fuel a) = Exit 0
        /\ existsb isFatal (trace (main E fuel a)) = false).
Proof.
  intros Hl Hc.
  rewrite (main_configured E fuel a cfg Hc), (run_listing E fuel a cfg Hl).
  split; [reflexivity|]. unfold listing. split.
  - destruct (FindAllDevs E); simpl; auto.
  - intros devs Hdevs. rewrite Hdevs. split; [reflexivity|].
    cbn [trace fst]. rewrite existsb_app. cbn [existsb isFatal orb].
    clear Hdevs. induction devs as [|dev devs IH]; [reflexivity | exact IH].
Qed.

Lemma listing_precedes_verification_witness :
  main (Stub.env 0 Stub.noFile (Ok [Stub.eth0])) 0
    (Stub.flags true "" "bogus" "" "plain")
  = listing (Stub.env 0 Stub.noFile (Ok [Stub.eth0])) false
  /\ In CallFindAllDevs
       (trace (main (Stub.env 0 Stub.noFile (Ok [Stub.eth0])) 0
                 (Stub.flags true "" "bogus" "" "plain")))
  /\ (forall devs,
        FindAllDevs (Stub.env 0 Stub.noFile (Ok [Stub.eth0])) = Ok devs ->
        outcome (main (Stub.env 0 Stub.noFile (Ok [Stub.eth0])) 0
                   (Stub.flags true "" "bogus" "" "plain")) = Exit 0
        /\ existsb isFatal
             (trace (main (Stub.env 0 Stub.noFile (Ok [Stub.eth0])) 0
                       (Stub.flags true "" "bogus" "" "plain"))) = false).
Proof.
  apply (listing_precedes_verification
           (Stub.env 0 Stub.noFile (Ok [Stub.eth0])) 0
           (Stub.flags true "" "bogus" "" "plain")
           (flagsConfig (Stub.flags true "" "bogus" "" "plain"))).
  - reflexivity.
  - reflexivity.
Defined.

(** C8 as stated fails: with [-list-devices], when the enumeration of the
    devices fails, the process does not exit with the status 0 but reports
    the failure and exits with the status 1. *)
Lemma listing_fails_exits_1 :
  argListDevs (Stub.flags true "" "" "" "plain") = true
  /\ main (Stub.env 0 Stub.noFile (Err (errorsNew "permission denied"))) 0
       (Stub.flags true "" "" "" "plain")
     = ([LogSetVerbose false; LogInfoln devicesHeader; CallFindAllDevs;
         LogFatalln "list devices: permission denied"], Exit 1)
  /\ outcome
       (main (Stub.env 0 Stub.noFile (Err (errorsNew "permission denied"))) 0
          (Stub.flags true "" "" "" "plain"))
     <> Exit 0.
Proof.
  split; [reflexivity|]. split; [reflexivity|]. discriminate.
Qed.

(** C10. When a configuration file is given with [-c] and parses, the
    configuration is the one of the file, and the whole run is the same
    whatever the inline flags for the listen devices, the upstream device,
    the method, the password, the verbosity, the upstream port, the filters
    and the server are. *)
Theorem config_file_overrides_inline_flags (E : Env) (a : Flags)
  (cfg : config.Config) :
  argConfig a <> "" ->
  ParseFile E (argConfig a) = Ok cfg ->
  configuration E a = ret cfg
  /\ (forall fuel, main E fuel a = run E fuel a cfg)
  /\ (forall a',
        argConfig a' = argConfig a ->
        argListDevs a' = argListDevs a ->
        configuration E a' = ret cfg
        /\ forall fuel, main E fuel a' = main E fuel a).
Proof.
  intros Hfile Hparse.
  pose proof (configuration_file E a cfg Hfile Hparse) as Hc.
  split; [exact Hc|]. split.
  - intros fuel. apply main_configured. exact Hc.
  - intros a' Hsame Hl.
    assert (Hc' : configuration E a' = ret cfg).
    { apply configuration_file; rewrite Hsame; assumption. }
    split; [exact Hc'|]. intros fuel.
    rewrite (main_configured E fuel a' cfg Hc'), (main_configured E fuel a cfg Hc).
    apply run_same_listing_flag. exact Hl.
Qed.

Lemma config_file_overrides_inline_flags_witness :
  configuration
    (Stub.env 0 (Ok (flagsConfig (Stub.flags false "" ":80" "203.0.113.5:12345" "plain")))
       (Ok [Stub.eth0]))
    (Stub.flags false "ikago.json" ":443,bogus" "nowhere" "rot13")
  = ret (flagsConfig (Stub.flags false "" ":80" "203.0.113.5:12345" "plain")).
Proof.
  refine (proj1 (config_file_overrides_inline_flags
           (Stub.env 0
              (Ok (flagsConfig (Stub.flags false "" ":80" "203.0.113.5:12345" "plain")))
              (Ok [Stub.eth0]))
           (Stub.flags false "ikago.json" ":443,bogus" "nowhere" "rot13")
           (flagsConfig (Stub.flags false "" ":80" "203.0.113.5:12345" "plain"))
           _ _)).
  - discriminate.
  - reflexivity.
Defined.

(* ================================================================== *)
(** * Further properties of [splitArg] *)
(* ================================================================== *)

Section SplitJoin.

Variable sep : ascii.

Lemma Split_sep_free_id (s : string) :
  GoStrings.Count s sep = O -> GoStrings.Split s sep = [s].
Proof.
  induction s as [|a rest IH]; cbn [GoStrings.Count GoStrings.Split];
    [reflexivity|].
  destruct (Ascii.eqb a sep); [discriminate|].
  intros Hc. rewrite (IH Hc). reflexivity.
Qed.

Lemma Split_app_sep (s rest : string) :
  GoStrings.Count s sep = O ->
  GoStrings.Split (s ++ String sep rest) sep = s :: GoStrings.Split rest sep.
Proof.
  induction s as [|a s IH]; cbn [GoStrings.Count append GoStrings.Split].
  - intros _. rewrite Ascii.eqb_refl. reflexivity.
  - destruct (Ascii.eqb a sep); [discriminate|].
    intros Hc. rewrite (IH Hc). reflexivity.
Qed.

Lemma Split_concat (items : list string) :
  items <> [] ->
  Forall (fun item => GoStrings.Count item sep = O) items ->
  GoStrings.Split (String.concat (String sep EmptyString) items) sep = items.
Proof.
  induction items as [|item rest IH]; [contradiction|].
  intros _ Hall. inversion Hall as [|? ? Hitem Hrest]; subst.
  destruct rest as [|item' rest].
  - cbn [String.concat]. apply Split_sep_free_id. exact Hitem.
  - change (String.concat (String sep EmptyString) (item :: item' :: rest))
      with (item ++ String sep (String.concat (String sep EmptyString) (item' :: rest))).
    rewrite (Split_app_sep _ _ Hitem), IH; [reflexivity | discriminate | exact Hrest].
Qed.

Lemma Count_app (s1 s2 : string) :
  GoStrings.Count (s1 ++ s2) sep
  = (GoStrings.Count s1 sep + GoStrings.Count s2 sep)%nat.
Proof.
  induction s1 as [|a s1 IH]; cbn [append GoStrings.Count]; [reflexivity|].
  destruct (Ascii.eqb a sep); rewrite IH; reflexivity.
Qed.

End SplitJoin.

Section TrimIdentity.

Variable c : ascii.

Lemma TrimRight_id (s : string) :
  GoStrings.lastIs c s = false -> GoStrings.TrimRight s c = s.
Proof.
  induction s as [|a rest IH]; [reflexivity|].
  intros Hlast. cbn [GoStrings.TrimRight].
  destruct rest as [|b rest].
  - cbn [GoStrings.TrimRight]. cbn [GoStrings.lastIs] in Hlast.
    rewrite Hlast. reflexivity.
  - rewrite IH by exact Hlast. reflexivity.
Qed.

Lemma TrimLeft_id (s : string) :
  GoStrings.firstIs c s = false -> GoStrings.TrimLeft s c = s.
Proof.
  destruct s as [|a rest]; [reflexivity|].
  cbn [GoStrings.firstIs GoStrings.TrimLeft]. intros ->. reflexivity.
Qed.

Lemma Trim_id (s : string) :
  GoStrings.firstIs c s = false ->
  GoStrings.lastIs c s = false ->
  GoStrings.Trim s c = s.
Proof.
  intros Hfirst Hlast. unfold GoStrings.Trim.
  rewrite (TrimRight_id s Hlast). apply TrimLeft_id. exact Hfirst.
Qed.

End TrimIdentity.

Lemma Trim_cleanItem (comp : string) :
  GoStrings.Count comp ","%char = O ->
  cleanItem (GoStrings.Trim comp " "%char).
Proof.
  intros Hc. destruct (Trim_trimmed_of comp) as (l & r & Heq & _ & _ & Hf & Hl).
  unfold cleanItem. repeat split; try assumption.
  rewrite Heq in Hc. rewrite !Count_app in Hc. lia.
Qed.

(** X1. [splitArg] returns the empty list for the empty string only: any
    other string, be it made of spaces or of commas only, gives at least one
    item. *)
Theorem splitArg_nil_iff (s : string) : splitArg s = [] <-> s = "".
Proof.
  split.
  - intros Hnil. destruct (String.eqb_spec s "") as [He|Hne]; [exact He|].
    rewrite (splitArg_nonempty s Hne) in Hnil.
    apply map_eq_nil in Hnil. exfalso.
    exact (Split_not_nil ","%char s Hnil).
  - intros ->. reflexivity.
Qed.

Lemma map_Trim_clean (comps : list string) :
  Forall (fun comp => GoStrings.Count comp ","%char = O) comps ->
  Forall cleanItem (map (fun str => GoStrings.Trim str " "%char) comps).
Proof.
  induction 1 as [|comp comps Hcomp _ IH]; cbn [map]; constructor.
  - apply Trim_cleanItem. exact Hcomp.
  - exact IH.
Qed.

Lemma map_Trim_id (items : list string) :
  Forall cleanItem items ->
  map (fun str => GoStrings.Trim str " "%char) items = items.
Proof.
  induction 1 as [|item rest (_ & Hf & Hl) _ IH]; cbn [map]; [reflexivity|].
  rewrite (Trim_id " "%char item Hf Hl), IH. reflexivity.
Qed.

Lemma cleanItems_comma_free (items : list string) :
  Forall cleanItem items ->
  Forall (fun item => GoStrings.Count item ","%char = O) items.
Proof.
  induction 1 as [|item rest (Hc & _) _ IH]; constructor; assumption.
Qed.

(** X2. No item that [splitArg] returns has a comma in it, a space in
    front or a space at the end. *)
Theorem splitArg_items_clean (s : string) : Forall cleanItem (splitArg s).
Proof.
  destruct (String.eqb_spec s "") as [->|Hne]; [constructor|].
  rewrite (splitArg_nonempty s Hne).
  apply map_Trim_clean. apply Split_sep_free.
Qed.

(** X3. Splitting undoes joining: a list of items that have no comma and
    no space in front or at the end, joined by commas into a string that is
    not empty, is given back by [splitArg], item for item. *)
Theorem splitArg_concat (items : list string) :
  Forall cleanItem items ->
  String.concat "," items <> "" ->
  splitArg (String.concat "," items) = items.
Proof.
  intros Hclean Hne.
  assert (Hitems : items <> []) by (intros ->; apply Hne; reflexivity).
  rewrite (splitArg_nonempty _ Hne).
  rewrite (Split_concat ","%char items Hitems (cleanItems_comma_free items Hclean)).
  apply map_Trim_id. exact Hclean.
Qed.

Lemma splitArg_concat_witness :
  splitArg (String.concat "," ["eth0"; ""; "wlan 0"]) = ["eth0"; ""; "wlan 0"].
Proof.
  apply (splitArg_concat ["eth0"; ""; "wlan 0"]).
  - repeat constructor.
  - discriminate.
Defined.

(** X4. [splitArg] normalizes: joining its items by commas and splitting
    again gives the same items, unless the join is the empty string (the
    items of a string of spaces only). *)
Theorem splitArg_idempotent (s : string) :
  String.concat "," (splitArg s) <> "" ->
  splitArg (String.concat "," (splitArg s)) = splitArg s.
Proof.
  intros Hne.
  destruct (String.eqb_spec s "") as [->|Hs]; [contradiction Hne; reflexivity|].
  assert (Hclean : Forall cleanItem (splitArg s)).
  { rewrite (splitArg_nonempty s Hs). apply map_Trim_clean, Split_sep_free. }
  assert (Hitems : splitArg s <> []).
  { intros Hnil. rewrite Hnil in Hne. apply Hne. reflexivity. }
  rewrite (splitArg_nonempty _ Hne).
  rewrite (Split_concat ","%char _ Hitems (cleanItems_comma_free _ Hclean)).
  apply map_Trim_id. exact Hclean.
Qed.

Lemma splitArg_idempotent_witness :
  splitArg (String.concat "," (splitArg " eth0 ,, wlan 0 "))
  = splitArg " eth0 ,, wlan 0 ".
Proof.
  apply (splitArg_idempotent " eth0 ,, wlan 0 "). discriminate.
Defined.

Example splitArg_spaces_only :
  splitArg "  " = [""] /\ splitArg (String.concat "," (splitArg "  ")) = [].
Proof. split; reflexivity. Qed.

(* ================================================================== *)
(** * Further properties of the choice of the upstream port *)
(* ================================================================== *)

Lemma portExists_same_port_filters (fs1 fs2 : list pcap.Filter) (UpPort : Z) :
  (forall port, In (pcap.PortFilter port) fs1 <-> In (pcap.PortFilter port) fs2) ->
  portExists fs1 UpPort = portExists fs2 UpPort.
Proof.
  intros Hsame.
  destruct (portExists fs1 UpPort) eqn:H1; symmetry.
  - apply portExists_true. apply Hsame. apply portExists_true. exact H1.
  - apply portExists_false. intros H2. apply portExists_false in H1.
    apply H1. apply Hsame. exact H2.
Qed.

Lemma selectUpPort_same_port_filters (E : Env) (fs1 fs2 : list pcap.Filter) :
  (forall port, In (pcap.PortFilter port) fs1 <-> In (pcap.PortFilter port) fs2) ->
  forall fuel r, selectUpPort E fuel r fs1 = selectUpPort E fuel r fs2.
Proof.
  intros Hsame. induction fuel as [|fuel IH]; intros r; cbn [selectUpPort];
    [reflexivity|].
  destruct (Intn E r 16384) as [n r'].
  rewrite (portExists_same_port_filters fs1 fs2 _ Hsame), IH. reflexivity.
Qed.

(** X5. The choice of the upstream port looks at the by-port filters only,
    and at them as a set: two filter lists with the same by-port filters,
    in whatever order and number, and with whatever filters by address or by
    address and port, lead to the same port, or to the same endless loop. *)
Theorem upPort_depends_on_port_filters_only (E : Env) (fuel : nat) (UpPort : Z)
  (fs1 fs2 : list pcap.Filter) :
  (forall port, In (pcap.PortFilter port) fs1 <-> In (pcap.PortFilter port) fs2) ->
  randomizeUpPort E fuel UpPort fs1 = randomizeUpPort E fuel UpPort fs2.
Proof.
  intros Hsame. unfold randomizeUpPort.
  rewrite (selectUpPort_same_port_filters E fs1 fs2 Hsame). reflexivity.
Qed.

Lemma upPort_depends_on_port_filters_only_witness :
  randomizeUpPort (Stub.env 48 Stub.noFile (Ok [])) 3 0
    [pcap.IPFilter [Byte.x0a; Byte.x00; Byte.x00; Byte.x01];
     pcap.PortFilter 49200;
     pcap.IPPortFilter [Byte.x0a; Byte.x00; Byte.x00; Byte.x01] 49201]
  = randomizeUpPort (Stub.env 48 Stub.noFile (Ok [])) 3 0
      [pcap.PortFilter 49200; pcap.PortFilter 49200].
Proof.
  apply (upPort_depends_on_port_filters_only
           (Stub.env 48 Stub.noFile (Ok [])) 3 0).
  intros port. simpl. split.
  - intros [H|[H|[H|[]]]]; try discriminate. left. exact H.
  - intros [H|[H|[]]]; right; left; exact H.
Defined.

Lemma nthDraw_S (E : Env) (k : nat) (r : Rand E) :
  nthDraw E (S k) r = nthDraw E k (snd (Intn E r 16384)).
Proof. reflexivity. Qed.

Lemma selectUpPort_first_free (E : Env) (filters : list pcap.Filter)
  (fuel : nat) (r : Rand E) (UpPort : Z) :
  selectUpPort E fuel r filters = Some UpPort
  <-> exists k,
        (k < fuel)%nat
        /\ UpPort = 49152 + nthDraw E k r
        /\ portExists filters UpPort = false
        /\ forall j, (j < k)%nat ->
             portExists filters (49152 + nthDraw E j r) = true.
Proof.
  revert r. induction fuel as [|fuel IH]; intros r.
  - cbn [selectUpPort]. split; [discriminate|].
    intros (k & Hk & _). lia.
  - cbn [selectUpPort].
    assert (H0 : nthDraw E 0 r = fst (Intn E r 16384)) by reflexivity.
    assert (HS : forall k, nthDraw E (S k) r = nthDraw E k (snd (Intn E r 16384)))
      by (intros k; apply nthDraw_S).
    destruct (Intn E r 16384) as [n r']. cbn [fst snd] in H0, HS.
    destruct (portExists filters (49152 + n)) eqn:Hex.
    + rewrite IH. split.
      * intros (k & Hk & Hp & Hfree & Hbefore).
        exists (S k). rewrite HS. repeat split; [lia | exact Hp | exact Hfree |].
        intros [|j] Hj; [rewrite H0; exact Hex | rewrite HS; apply Hbefore; lia].
      * intros (k & Hk & Hp & Hfree & Hbefore).
        destruct k as [|k].
        { rewrite H0 in Hp. subst UpPort. congruence. }
        exists k. rewrite HS in Hp. repeat split; [lia | exact Hp | exact Hfree |].
        intros j Hj. rewrite <- HS. apply Hbefore. lia.
    + split.
      * intros Heq. assert (Hp : 49152 + n = UpPort) by congruence.
        exists O. rewrite H0. repeat split; [lia | congruence | congruence |].
        intros j Hj. lia.
      * intros (k & Hk & Hp & Hfree & Hbefore).
        destruct k as [|k].
        { rewrite H0 in Hp. subst UpPort. reflexivity. }
        specialize (Hbefore O ltac:(lia)). rewrite H0 in Hbefore. congruence.
Qed.

(** X6. The loop chooses the first candidate that no by-port filter has:
    it returns a port within [fuel] draws exactly when some draw among the
    first [fuel] gives a candidate 49152 + draw that the inner loop does not
    find, all the candidates before it being found; the port is that
    candidate. *)
Theorem upPort_is_first_free_candidate (E : Env) (fuel : nat)
  (filters : list pcap.Filter) (UpPort : Z) :
  randomizeUpPort E fuel 0 filters = ret UpPort
  <-> exists k,
        (k < fuel)%nat
        /\ UpPort = 49152 + nthDraw E k (NewRand E)
        /\ portExists filters UpPort = false
        /\ forall j, (j < k)%nat ->
             portExists filters (49152 + nthDraw E j (NewRand E)) = true.
Proof.
  rewrite <- selectUpPort_first_free.
  unfold randomizeUpPort, ret. rewrite Z.eqb_refl.
  destruct (selectUpPort E fuel (NewRand E) filters); split; congruence.
Qed.

(** X7. A filter list without a by-port filter never makes the loop draw
    twice: the port is 49152 plus the first draw. *)
Theorem upPort_without_port_filter (E : Env) (fuel : nat)
  (filters : list pcap.Filter) :
  (forall port, ~ In (pcap.PortFilter port) filters) ->
  randomizeUpPort E (S fuel) 0 filters
  = ret (49152 + fst (Intn E (NewRand E) 16384)).
Proof.
  intros Hnone. unfold randomizeUpPort. rewrite Z.eqb_refl.
  assert (Hsel : selectUpPort E (S fuel) (NewRand E) filters
                 = Some (49152 + fst (Intn E (NewRand E) 16384))).
  { apply selectUpPort_first_free. exists O.
    repeat split; [lia | | intros j Hj; lia].
    apply portExists_false. apply Hnone. }
  rewrite Hsel. reflexivity.
Qed.

Lemma upPort_without_port_filter_witness :
  randomizeUpPort (Stub.env 48 Stub.noFile (Ok [])) 1 0
    [pcap.IPFilter [Byte.x0a; Byte.x00; Byte.x00; Byte.x01]]
  = ret (49152
         + fst (Intn (Stub.env 48 Stub.noFile (Ok []))
                  (NewRand (Stub.env 48 Stub.noFile (Ok []))) 16384)).
Proof.
  apply (upPort_without_port_filter (Stub.env 48 Stub.noFile (Ok [])) 0
           [pcap.IPFilter [Byte.x0a; Byte.x00; Byte.x00; Byte.x01]]).
  intros port [H|[]]. discriminate.
Defined.

(* ================================================================== *)
(** * Further properties of [main] *)
(* ================================================================== *)

(** ** What the announcement logs *)

Lemma announce_quiet (filters : list pcap.Filter) (UpPort : Z)
  (serverIPPort : pcap.IPPort) :
  announce filters UpPort serverIPPort
  = (trace (announce filters UpPort serverIPPort), Continue tt)
  /\ forall e, In e (trace (announce filters UpPort serverIPPort)) ->
       isDeviceCall e = false /\ isFatal e = false.
Proof.
  assert (Hmany :
    (emit (LogInfoln "Proxy:") ;;;
     forRange filters (fun filter => emit (LogInfoFilter filter)) ;;;
     emit (LogInfoThrough UpPort serverIPPort))
    = (LogInfoln "Proxy:"
         :: (map LogInfoFilter filters ++ [LogInfoThrough UpPort serverIPPort])%list,
       Continue tt)).
  { rewrite forRange_emit. run_steps. reflexivity. }
  assert (Hquiet : forall e,
    In e (LogInfoln "Proxy:"
            :: (map LogInfoFilter filters ++ [LogInfoThrough UpPort serverIPPort])%list) ->
    isDeviceCall e = false /\ isFatal e = false).
  { intros e [<- | Hin]; [split; reflexivity|].
    apply in_app_or in Hin. destruct Hin as [Hin | [<- | []]].
    - apply in_map_iff in Hin. destruct Hin as (f & <- & _). split; reflexivity.
    - split; reflexivity. }
  unfold announce. destruct filters as [|f [|f' rest]].
  - rewrite Hmany. split; [reflexivity | exact Hquiet].
  - split; [reflexivity|]. intros e [<- | []]. split; reflexivity.
  - rewrite Hmany. split; [reflexivity | exact Hquiet].
Qed.

(** ** The resolution and the opening, case by case *)

(** The five ways in which lines 130-197 end: the server or the method
    does not parse; the listen devices are not found; the upstream and the
    gateway device are not found; the capture does not open; it opens. *)
Lemma resolveAndOpen_shape (E : Env) (cfg : config.Config)
  (filters : list pcap.Filter) (UpPort : Z) :
  (exists msg,
     resolveAndOpen E cfg filters UpPort = ([LogFatalln msg], Exit 1)
     /\ msg <> ""
     /\ ((exists err, ParseIPPort E (config.Server cfg) = Err err)
         \/ unknownMethod E cfg))
  \/ (exists serverIPPort c msg,
        ParseIPPort E (config.Server cfg) = Ok serverIPPort
        /\ cryptoParse E (config.Method cfg) (config.Password cfg) = Ok c
        /\ resolveAndOpen E cfg filters UpPort
           = ((trace (announce filters UpPort serverIPPort)
               ++ [CallFindListenDevs (config.ListenDevs cfg); LogFatalln msg])%list,
              Exit 1)
        /\ msg <> ""
        /\ ((exists err, FindListenDevs E (config.ListenDevs cfg) = Err err)
            \/ FindListenDevs E (config.ListenDevs cfg) = Ok []))
  \/ (exists serverIPPort c dev devs msg,
        ParseIPPort E (config.Server cfg) = Ok serverIPPort
        /\ cryptoParse E (config.Method cfg) (config.Password cfg) = Ok c
        /\ FindListenDevs E (config.ListenDevs cfg) = Ok (dev :: devs)
        /\ resolveAndOpen E cfg filters UpPort
           = ((trace (announce filters UpPort serverIPPort)
               ++ deviceLookups cfg ++ [LogFatalln msg])%list,
              Exit 1)
        /\ msg <> ""
        /\ ((exists err,
               FindUpstreamDevAndGatewayDev E (config.UpDev cfg) = Err err)
            \/ (exists gatewayDev,
                  FindUpstreamDevAndGatewayDev E (config.UpDev cfg)
                  = Ok (None, gatewayDev))
            \/ (exists upDev,
                  FindUpstreamDevAndGatewayDev E (config.UpDev cfg)
                  = Ok (upDev, None))))
  \/ (exists serverIPPort c dev devs upDev gatewayDev,
        ParseIPPort E (config.Server cfg) = Ok serverIPPort
        /\ cryptoParse E (config.Method cfg) (config.Password cfg) = Ok c
        /\ FindListenDevs E (config.ListenDevs cfg) = Ok (dev :: devs)
        /\ FindUpstreamDevAndGatewayDev E (config.UpDev cfg)
           = Ok (Some upDev, Some gatewayDev)
        /\ ((exists err,
               Open E (newClient filters UpPort serverIPPort (dev :: devs)
                         upDev gatewayDev c) = Some err
               /\ resolveAndOpen E cfg filters UpPort
                  = ((trace (announce filters UpPort serverIPPort)
                      ++ deviceLookups cfg
                      ++ [CallOpen (newClient filters UpPort serverIPPort
                                      (dev :: devs) upDev gatewayDev c);
                          LogFatalln ("open pcap: " ++ Error err)])%list,
                     Exit 1))
            \/ (Open E (newClient filters UpPort serverIPPort (dev :: devs)
                          upDev gatewayDev c) = None
                /\ resolveAndOpen E cfg filters UpPort
                   = ((trace (announce filters UpPort serverIPPort)
                       ++ deviceLookups cfg
                       ++ [CallOpen (newClient filters UpPort serverIPPort
                                       (dev :: devs) upDev gatewayDev c)])%list,
                      Continue tt)))).
Proof.
  unfold resolveAndOpen, unknownMethod.
  destruct (ParseIPPort E (config.Server cfg)) as [ipport|err].
  2:{ left. run_steps. eexists. split; [reflexivity|]. split; [discriminate|].
      left. eauto. }
  destruct (cryptoParse E (config.Method cfg) (config.Password cfg)) as [c|err].
  2:{ left. run_steps. eexists. split; [reflexivity|]. split; [discriminate|].
      right. eauto. }
  destruct (announce_quiet filters UpPort ipport) as (Ha & _).
  unfold findDevices, deviceLookups.
  destruct (FindListenDevs E (config.ListenDevs cfg)) as [[|dev devs]|err].
  - right. left. run_steps. rewrite Ha. run_steps. cbn [List.length Nat.leb]. run_steps. exists ipport, c. eexists.
    repeat (split; [reflexivity|]). split; [discriminate | auto].
  - cbn [List.length Nat.leb].
    destruct (FindUpstreamDevAndGatewayDev E (config.UpDev cfg))
      as [[[upDev|] [gatewayDev|]]|err].
    + right. right. right.
      exists ipport, c, dev, devs, upDev, gatewayDev.
      repeat (split; [reflexivity|]).
      run_steps. rewrite Ha. run_steps. cbn [List.length Nat.leb]. run_steps.
      fold (newClient filters UpPort ipport (dev :: devs) upDev gatewayDev c).
      destruct (Open E (newClient filters UpPort ipport (dev :: devs)
                          upDev gatewayDev c)) as [err|].
      * left. exists err. split; [reflexivity|]. run_steps. reflexivity.
      * right. split; [reflexivity|]. run_steps. reflexivity.
    + right. right. left. run_steps. rewrite Ha. run_steps. cbn [List.length Nat.leb]. run_steps.
      exists ipport, c, dev, devs. eexists.
      repeat (split; [reflexivity|]). split; [discriminate|]. right. right. eauto.
    + right. right. left. run_steps. rewrite Ha. run_steps. cbn [List.length Nat.leb]. run_steps.
      exists ipport, c, dev, devs. eexists.
      repeat (split; [reflexivity|]). split; [discriminate|]. right. left. eauto.
    + right. right. left. run_steps. rewrite Ha. run_steps. cbn [List.length Nat.leb]. run_steps.
      exists ipport, c, dev, devs. eexists.
      repeat (split; [reflexivity|]). split; [discriminate|]. right. left. eauto.
    + right. right. left. run_steps. rewrite Ha. run_steps. cbn [List.length Nat.leb]. run_steps.
      exists ipport, c, dev, devs. eexists.
      repeat (split; [reflexivity|]). split; [discriminate|]. left. eauto.
  - right. left. run_steps. rewrite Ha. run_steps. cbn [List.length Nat.leb]. run_steps. exists ipport, c. eexists.
    repeat (split; [reflexivity|]). split; [discriminate | eauto].
Qed.

(** ** The whole of [main], case by case *)

Lemma verifyParameters_passes (E : Env) (cfg : config.Config)
  (filters : list pcap.Filter) :
  verifyParameters E cfg = ret filters ->
  config.Filters cfg <> []
  /\ config.Server cfg <> ""
  /\ 0 <= config.UpPort cfg < 65536
  /\ Forall2 (fun str f => ParseFilter E str = Ok f) (config.Filters cfg) filters.
Proof.
  unfold verifyParameters.
  destruct (config.Filters cfg) as [|str0 strs] eqn:Hf; [discriminate|].
  cbn [List.length Nat.leb]. rewrite bind_ret_l.
  destruct (String.eqb_spec (config.Server cfg) "") as [Hs|Hs]; [discriminate|].
  rewrite bind_ret_l.
  destruct (parseFilters_cases E (str0 :: strs) [])
    as [(fs & Hall & Heq) | (msg & Heq & Hmsg)]; rewrite Heq;
    [|discriminate].
  rewrite bind_ret_l.
  destruct (Z.ltb_spec (config.UpPort cfg) 0) as [Hlo|Hlo]; [discriminate|].
  destruct (Z.geb_spec (config.UpPort cfg) 65536) as [Hhi|Hhi]; [discriminate|].
  cbn [orb]. run_steps. intros Heq'. unfold ret in Heq'.
  assert (fs = filters) by congruence. subst fs.
  repeat split; try assumption; try lia. discriminate.
Qed.

Lemma randomizeUpPort_spinning_zero (E : Env) (fuel : nat) (UpPort : Z)
  (filters : list pcap.Filter) :
  randomizeUpPort E fuel UpPort filters = ([], Spinning) -> UpPort = 0.
Proof.
  unfold randomizeUpPort. destruct (Z.eqb_spec UpPort 0); [auto | discriminate].
Qed.

Lemma randomizeUpPort_given (E : Env) (fuel : nat) (UpPort UpPort' : Z)
  (filters : list pcap.Filter) :
  UpPort <> 0 ->
  randomizeUpPort E fuel UpPort filters = ret UpPort' ->
  UpPort' = UpPort.
Proof.
  unfold randomizeUpPort, ret.
  destruct (Z.eqb_spec UpPort 0); [contradiction | congruence].
Qed.

(** The five ways of a run: the configuration file does not parse; the
    devices are listed; the parameters are refused; the loop that chooses
    the port is still running; the resolution and the opening are
    reached. *)
Lemma main_shape (E : Env) (fuel : nat) (a : Flags) :
  (exists msg,
     main E fuel a = ([LogFatalln msg], Exit 1) /\ msg <> "")
  \/ (exists cfg,
        configuration E a = ret cfg /\ argListDevs a = true
        /\ main E fuel a = listing E (config.Verbose cfg))
  \/ (exists cfg msg,
        configuration E a = ret cfg /\ argListDevs a = false
        /\ verifyParameters E cfg = ([LogFatalln msg], Exit 1) /\ msg <> ""
        /\ main E fuel a
           = ([LogSetVerbose (config.Verbose cfg); LogFatalln msg], Exit 1))
  \/ (exists cfg filters,
        configuration E a = ret cfg /\ argListDevs a = false
        /\ verifyParameters E cfg = ret filters
        /\ config.UpPort cfg = 0
        /\ main E fuel a = ([LogSetVerbose (config.Verbose cfg)], Spinning))
  \/ (exists cfg filters UpPort,
        configuration E a = ret cfg /\ argListDevs a = false
        /\ verifyParameters E cfg = ret filters
        /\ randomizeUpPort E fuel (config.UpPort cfg) filters = ret UpPort
        /\ main E fuel a
           = (LogSetVerbose (config.Verbose cfg)
                :: trace (resolveAndOpen E cfg filters UpPort),
              outcome (resolveAndOpen E cfg filters UpPort))).
Proof.
  destruct (configuration_cases E a) as [(cfg & Hc) | (msg & err & Hc & Hmsg & _)].
  2:{ left. exists msg. split; [apply main_not_configured; exact Hc | exact Hmsg]. }
  right. rewrite (main_configured E fuel a cfg Hc).
  destruct (argListDevs a) eqn:Hl.
  { left. exists cfg. split; [exact Hc|]. split; [reflexivity|].
    apply run_listing. exact Hl. }
  right.
  destruct (verifyParameters_cases E cfg)
    as [(filters & Hv & _) | (msg & Hv & Hmsg)].
  2:{ left. exists cfg, msg. repeat (split; [assumption || reflexivity|]).
      apply run_refused; assumption. }
  right.
  destruct (randomizeUpPort_cases E fuel (config.UpPort cfg) filters)
    as [(UpPort & Hr) | Hr].
  - right. exists cfg, filters, UpPort.
    repeat (split; [assumption || reflexivity|]).
    apply run_resolving; assumption.
  - left. exists cfg, filters.
    repeat (split; [assumption || reflexivity|]).
    split; [exact (randomizeUpPort_spinning_zero E fuel _ filters Hr)|].
    apply run_spinning with (filters := filters); assumption.
Qed.



Lemma announce_no_call (filters : list pcap.Filter) (UpPort : Z)
  (serverIPPort : pcap.IPPort) (e : Event) (rest : list Event) :
  isDeviceCall e = true ->
  In e (trace (announce filters UpPort serverIPPort) ++ rest)%list ->
  In e rest.
Proof.
  intros Hcall Hin. apply in_app_or in Hin. destruct Hin as [Hin | Hin];
    [|exact Hin].
  destruct (proj2 (announce_quiet filters UpPort serverIPPort) e Hin) as (Hq & _).
  congruence.
Qed.

Lemma listing_events (E : Env) (verbose : bool) (e : Event) :
  In e (trace (listing E verbose)) ->
  e = LogSetVerbose verbose \/ e = LogInfoln devicesHeader \/ e = CallFindAllDevs
  \/ isFatal e = true \/ exists dev, e = LogInfoDevice dev.
Proof.
  unfold listing. destruct (FindAllDevs E) as [devs|err]; cbn [trace fst].
  - intros Hin. apply in_app_or in Hin. destruct Hin as [Hin | Hin].
    + destruct Hin as [<-|[<-|[<-|[]]]]; auto.
    + apply in_map_iff in Hin. destruct Hin as (dev & <- & _). eauto 6.
  - intros [<-|[<-|[<-|[<-|[]]]]]; auto.
Qed.

(** Goes through a membership in a trace that is written out. *)
Ltac in_small_trace H :=
  cbn [trace fst deviceLookups app] in H;
  repeat (destruct H as [H | H]; [try discriminate H|]);
  try contradiction.

(** The capture is opened only at the end of a run in which everything
    before has gone through. *)
Lemma main_opened (E : Env) (fuel : nat) (a : Flags) (p : pcapClient.Client) :
  In (CallOpen p) (trace (main E fuel a)) ->
  exists cfg filters UpPort serverIPPort c dev devs upDev gatewayDev,
    argListDevs a = false
    /\ configuration E a = ret cfg
    /\ verifyParameters E cfg = ret filters
    /\ randomizeUpPort E fuel (config.UpPort cfg) filters = ret UpPort
    /\ ParseIPPort E (config.Server cfg) = Ok serverIPPort
    /\ cryptoParse E (config.Method cfg) (config.Password cfg) = Ok c
    /\ FindListenDevs E (config.ListenDevs cfg) = Ok (dev :: devs)
    /\ FindUpstreamDevAndGatewayDev E (config.UpDev cfg)
       = Ok (Some upDev, Some gatewayDev)
    /\ p = newClient filters UpPort serverIPPort (dev :: devs) upDev gatewayDev c.
Proof.
  intros Hin.
  destruct (main_shape E fuel a)
    as [(msg & Hm & Hmsg)
       | [(cfg & Hc & Hl & Hm)
         | [(cfg & msg & Hc & Hl & Hv & Hmsg & Hm)
           | [(cfg & fs & Hc & Hl & Hv & Hz & Hm)
             | (cfg & fs & up & Hc & Hl & Hv & Hr & Hm)]]]];
    rewrite Hm in Hin.
  - in_small_trace Hin.
  - apply listing_events in Hin.
    destruct Hin as [H|[H|[H|[H|(dev & H)]]]]; discriminate.
  - in_small_trace Hin.
  - in_small_trace Hin.
  - cbn [trace fst] in Hin. destruct Hin as [Hin | Hin]; [discriminate|].
    destruct (resolveAndOpen_shape E cfg fs up)
      as [(msg & Hres & _)
         | [(ipport & c & msg & _ & _ & Hres & _)
           | [(ipport & c & dev & devs & msg & _ & _ & _ & Hres & _)
             | (ipport & c & dev & devs & upDev & gatewayDev & Hs & Hk & Hld & Hud
                & [(err & Hopen & Hres) | (Hopen & Hres)])]]];
      rewrite Hres in Hin; cbn [trace fst] in Hin.
    + in_small_trace Hin.
    + apply announce_no_call in Hin; [|reflexivity]. in_small_trace Hin.
    + apply announce_no_call in Hin; [|reflexivity]. in_small_trace Hin.
    + apply announce_no_call in Hin; [|reflexivity].
      cbn [deviceLookups app] in Hin.
      destruct Hin as [Hin|[Hin|[Hin|[Hin|[]]]]]; try discriminate.
      exists cfg, fs, up, ipport, c, dev, devs, upDev, gatewayDev.
      repeat (split; [assumption|]). congruence.
    + apply announce_no_call in Hin; [|reflexivity].
      cbn [deviceLookups app] in Hin.
      destruct Hin as [Hin|[Hin|[Hin|[]]]]; try discriminate.
      exists cfg, fs, up, ipport, c, dev, devs, upDev, gatewayDev.
      repeat (split; [assumption|]). congruence.
Qed.

(** X9. [Open] is called only when everything before it has gone through:
    without [-list-devices], on settings that are valid, with the filters
    of the client being the parsed filter strings of the configuration, in
    order, the server and the method parsed, at least one listen device
    found, and the upstream and the gateway device found; the client is
    made of exactly these values. *)
Theorem open_only_when_all_resolved (E : Env) (fuel : nat) (a : Flags)
  (p : pcapClient.Client) :
  In (CallOpen p) (trace (main E fuel a)) ->
  exists cfg serverIPPort c upDev gatewayDev,
    argListDevs a = false
    /\ configuration E a = ret cfg
    /\ ~ invalidSettings cfg
    /\ Forall2 (fun str f => ParseFilter E str = Ok f)
         (config.Filters cfg) (pcapClient.Filters p)
    /\ ParseIPPort E (config.Server cfg) = Ok serverIPPort
    /\ pcapClient.ServerIP p = pcap.IPPort_IP serverIPPort
    /\ pcapClient.ServerPort p = pcap.IPPort_Port serverIPPort
    /\ cryptoParse E (config.Method cfg) (config.Password cfg) = Ok c
    /\ pcapClient.Crypto p = c
    /\ FindListenDevs E (config.ListenDevs cfg) = Ok (pcapClient.ListenDevs p)
    /\ pcapClient.ListenDevs p <> []
    /\ FindUpstreamDevAndGatewayDev E (config.UpDev cfg)
       = Ok (Some upDev, Some gatewayDev)
    /\ pcapClient.UpDev p = upDev
    /\ pcapClient.GatewayDev p = gatewayDev.
Proof.
  intros Hin.
  destruct (main_opened E fuel a p Hin)
    as (cfg & fs & up & ipport & c & dev & devs & upDev & gatewayDev
        & Hl & Hc & Hv & Hr & Hs & Hk & Hld & Hud & ->).
  destruct (verifyParameters_passes E cfg fs Hv) as (Hf & Hsrv & Hport & Hall).
  exists cfg, ipport, c, upDev, gatewayDev. cbn [newClient
    pcapClient.Filters pcapClient.ServerIP pcapClient.ServerPort
    pcapClient.Crypto pcapClient.ListenDevs pcapClient.UpDev
    pcapClient.GatewayDev].
  repeat (split; [assumption || reflexivity || idtac|]).
  - intros [H|[H|[H|H]]]; [contradiction | contradiction | lia | lia].
  - discriminate.
  - reflexivity.
Qed.

Lemma open_only_when_all_resolved_witness :
  exists cfg serverIPPort c upDev gatewayDev,
    argListDevs (Stub.flags false "" ":80" "203.0.113.5:12345" "plain") = false
    /\ configuration (Stub.env 0 Stub.noFile (Ok [Stub.eth0]))
         (Stub.flags false "" ":80" "203.0.113.5:12345" "plain") = ret cfg
    /\ ~ invalidSettings cfg
    /\ Forall2
         (fun str f =>
            ParseFilter (Stub.env 0 Stub.noFile (Ok [Stub.eth0])) str = Ok f)
         (config.Filters cfg)
         (pcapClient.Filters
            (newClient [pcap.PortFilter 80] 49152
               {| pcap.IPPort_IP := [Byte.xcb; Byte.x00; Byte.x71; Byte.x05];
                  pcap.IPPort_Port := 12345 |}
               [Stub.eth0] Stub.eth0 Stub.gateway
               {| crypto.CryptoMethod := "plain"; crypto.CryptoPassword := "" |}))
    /\ ParseIPPort (Stub.env 0 Stub.noFile (Ok [Stub.eth0])) (config.Server cfg)
       = Ok serverIPPort
    /\ [Byte.xcb; Byte.x00; Byte.x71; Byte.x05] = pcap.IPPort_IP serverIPPort
    /\ 12345 = pcap.IPPort_Port serverIPPort
    /\ cryptoParse (Stub.env 0 Stub.noFile (Ok [Stub.eth0]))
         (config.Method cfg) (config.Password cfg) = Ok c
    /\ {| crypto.CryptoMethod := "plain"; crypto.CryptoPassword := "" |} = c
    /\ FindListenDevs (Stub.env 0 Stub.noFile (Ok [Stub.eth0]))
         (config.ListenDevs cfg) = Ok [Stub.eth0]
    /\ [Stub.eth0] <> []
    /\ FindUpstreamDevAndGatewayDev (Stub.env 0 Stub.noFile (Ok [Stub.eth0]))
         (config.UpDev cfg) = Ok (Some upDev, Some gatewayDev)
    /\ Stub.eth0 = upDev
    /\ Stub.gateway = gatewayDev.
Proof.
  apply (open_only_when_all_resolved (Stub.env 0 Stub.noFile (Ok [Stub.eth0])) 1
           (Stub.flags false "" ":80" "203.0.113.5:12345" "plain")
           (newClient [pcap.PortFilter 80] 49152
              {| pcap.IPPort_IP := [Byte.xcb; Byte.x00; Byte.x71; Byte.x05];
                 pcap.IPPort_Port := 12345 |}
              [Stub.eth0] Stub.eth0 Stub.gateway
              {| crypto.CryptoMethod := "plain"; crypto.CryptoPassword := "" |})).
  vm_compute. right. right. right. right. left. reflexivity.
Defined.

Lemma ret_inj {A : Type} (x y : A) : ret x = ret y -> x = y.
Proof. unfold ret. congruence. Qed.

(** X10. The upstream port of the client that is opened: a port
    configured other than 0 is handed over as it is, whatever the filters
    are; a port configured as 0 is replaced, with a generator that keeps to
    the contract of [Intn], by a port of 49152..65535 that none of the
    by-port filters of the client has. *)
Theorem upPort_of_opened_client (E : Env) (fuel : nat) (a : Flags)
  (cfg : config.Config) (p : pcapClient.Client) :
  In (CallOpen p) (trace (main E fuel a)) ->
  configuration E a = ret cfg ->
  (config.UpPort cfg <> 0 -> pcapClient.UpPort p = config.UpPort cfg)
  /\ (config.UpPort cfg = 0 ->
      IntnInRange E ->
      49152 <= pcapClient.UpPort p <= 65535
      /\ forall port,
           In (pcap.PortFilter port) (pcapClient.Filters p) ->
           port <> pcapClient.UpPort p).
Proof.
  intros Hin Hc.
  destruct (main_opened E fuel a p Hin)
    as (cfg' & fs & up & ipport & c & dev & devs & upDev & gatewayDev
        & Hl & Hc' & Hv & Hr & _ & _ & _ & _ & ->).
  rewrite Hc in Hc'. apply ret_inj in Hc'. subst cfg'.
  destruct (verifyParameters_passes E cfg fs Hv) as (_ & _ & Hport & _).
  cbn [newClient pcapClient.UpPort pcapClient.Filters]. split.
  - intros Hnz. rewrite (randomizeUpPort_given E fuel _ up fs Hnz Hr).
    apply uint16_small. exact Hport.
  - intros Hz Hrange. rewrite Hz in Hr.
    assert (Hsel : selectUpPort E fuel (NewRand E) fs = Some up).
    { apply randomizeUpPort_zero. rewrite Hr. reflexivity. }
    pose proof (selectUpPort_range E fs fuel _ up Hrange Hsel) as Hup.
    rewrite uint16_small by lia. split; [exact Hup|].
    intros port Hport' ->.
    apply selectUpPort_free, portExists_false in Hsel.
    rewrite uint16_small in Hsel by lia. contradiction.
Qed.

Lemma upPort_of_opened_client_witness :
  (51000 <> 0 ->
   pcapClient.UpPort
     (newClient [pcap.PortFilter 51000] 51000
        {| pcap.IPPort_IP := [Byte.xcb; Byte.x00; Byte.x71; Byte.x05];
           pcap.IPPort_Port := 12345 |}
        [Stub.eth0] Stub.eth0 Stub.gateway
        {| crypto.CryptoMethod := "plain"; crypto.CryptoPassword := "" |})
   = 51000)
  /\ (0 = 0 ->
      IntnInRange (Stub.env 0 Stub.noFile (Ok [Stub.eth0])) ->
      49152 <= 49152 <= 65535
      /\ forall port, In (pcap.PortFilter port) [pcap.PortFilter 80] -> port <> 49152).
Proof.
  split.
  - apply (proj1 (upPort_of_opened_client
             (Stub.env 0 (Ok fixedPortConfig) (Ok [Stub.eth0])) 0
             (Stub.flags false "ikago.json" "" "" "plain")
             fixedPortConfig
             (newClient [pcap.PortFilter 51000] 51000
                {| pcap.IPPort_IP := [Byte.xcb; Byte.x00; Byte.x71; Byte.x05];
                   pcap.IPPort_Port := 12345 |}
                [Stub.eth0] Stub.eth0 Stub.gateway
                {| crypto.CryptoMethod := "plain"; crypto.CryptoPassword := "" |})
             ltac:(vm_compute; do 4 right; left; reflexivity)
             eq_refl)).
  - apply (proj2 (upPort_of_opened_client
             (Stub.env 0 Stub.noFile (Ok [Stub.eth0])) 1
             (Stub.flags false "" ":80" "203.0.113.5:12345" "plain")
             (flagsConfig (Stub.flags false "" ":80" "203.0.113.5:12345" "plain"))
             (newClient [pcap.PortFilter 80] 49152
                {| pcap.IPPort_IP := [Byte.xcb; Byte.x00; Byte.x71; Byte.x05];
                   pcap.IPPort_Port := 12345 |}
                [Stub.eth0] Stub.eth0 Stub.gateway
                {| crypto.CryptoMethod := "plain"; crypto.CryptoPassword := "" |})
             ltac:(vm_compute; do 4 right; left; reflexivity)
             eq_refl)).
Defined.

(** X11. A run in which everything goes through: without [-list-devices],
    with settings that are valid, filter strings that all parse, a port
    that is settled, a server and a method that parse, listen devices, an
    upstream and a gateway device that are found, and a capture that opens
    without error, [main] logs the verbosity and the announcement, looks up
    the listen devices and then the upstream and gateway devices, opens the
    client made of these values, and returns. *)
Theorem run_that_opens (E : Env) (fuel : nat) (a : Flags) (cfg : config.Config)
  (filters : list pcap.Filter) (UpPort : Z) (serverIPPort : pcap.IPPort)
  (c : crypto.Crypto) (dev : pcap.Device) (devs : list pcap.Device)
  (upDev gatewayDev : pcap.Device) :
  argListDevs a = false ->
  configuration E a = ret cfg ->
  config.Filters cfg <> [] ->
  config.Server cfg <> "" ->
  0 <= config.UpPort cfg < 65536 ->
  Forall2 (fun str f => ParseFilter E str = Ok f) (config.Filters cfg) filters ->
  randomizeUpPort E fuel (config.UpPort cfg) filters = ret UpPort ->
  ParseIPPort E (config.Server cfg) = Ok serverIPPort ->
  cryptoParse E (config.Method cfg) (config.Password cfg) = Ok c ->
  FindListenDevs E (config.ListenDevs cfg) = Ok (dev :: devs) ->
  FindUpstreamDevAndGatewayDev E (config.UpDev cfg)
  = Ok (Some upDev, Some gatewayDev) ->
  Open E (newClient filters UpPort serverIPPort (dev :: devs) upDev gatewayDev c)
  = None ->
  main E fuel a
  = ((LogSetVerbose (config.Verbose cfg)
        :: trace (announce filters UpPort serverIPPort)
        ++ deviceLookups cfg
        ++ [CallOpen (newClient filters UpPort serverIPPort (dev :: devs)
                        upDev gatewayDev c)])%list,
     Continue tt).
Proof.
  intros Hl Hc Hf Hsrv Hport Hall Hr Hs Hk Hld Hud Hopen.
  pose proof (verifyParameters_ok E cfg filters Hf Hsrv Hport Hall) as Hv.
  rewrite (main_configured E fuel a cfg Hc).
  rewrite (run_resolving E fuel a cfg Hl filters UpPort Hv Hr).
  destruct (resolveAndOpen_shape E cfg filters UpPort)
    as [(msg & _ & _ & [(err & He) | (err & He)])
       | [(ipport & c' & msg & _ & _ & _ & _ & [(err & He) | He])
         | [(ipport & c' & dev' & devs' & msg & _ & _ & _ & _ & _
             & [(err & He) | [(g & He) | (u & He)]])
           | (ipport & c' & dev' & devs' & upDev' & gatewayDev'
              & Hs' & Hk' & Hld' & Hud' & Hcases)]]];
    try congruence.
  assert (ipport = serverIPPort) by congruence.
  assert (c' = c) by congruence.
  assert (dev' :: devs' = dev :: devs) as Hdevs by congruence.
  assert (upDev' = upDev) by congruence.
  assert (gatewayDev' = gatewayDev) by congruence.
  subst. rewrite Hdevs in Hcases.
  destruct Hcases as [(err & Hopen' & _) | (_ & Hres)]; [congruence|].
  rewrite Hres. reflexivity.
Qed.

Lemma run_that_opens_witness :
  main (Stub.env 0 Stub.noFile (Ok [Stub.eth0])) 1
    (Stub.flags false "" ":80, :443" "203.0.113.5:12345" "plain")
  = ([LogSetVerbose false; LogInfoln "Proxy:";
      LogInfoFilter (pcap.PortFilter 80); LogInfoFilter (pcap.PortFilter 443);
      LogInfoThrough 49152
        {| pcap.IPPort_IP := [Byte.xcb; Byte.x00; Byte.x71; Byte.x05];
           pcap.IPPort_Port := 12345 |};
      CallFindListenDevs []; CallFindUpstreamDevAndGatewayDev "";
      CallOpen
        (newClient [pcap.PortFilter 80; pcap.PortFilter 443] 49152
           {| pcap.IPPort_IP := [Byte.xcb; Byte.x00; Byte.x71; Byte.x05];
              pcap.IPPort_Port := 12345 |}
           [Stub.eth0] Stub.eth0 Stub.gateway
           {| crypto.CryptoMethod := "plain"; crypto.CryptoPassword := "" |})],
     Continue tt).
Proof.
  apply (run_that_opens (Stub.env 0 Stub.noFile (Ok [Stub.eth0])) 1
           (Stub.flags false "" ":80, :443" "203.0.113.5:12345" "plain")
           (flagsConfig
              (Stub.flags false "" ":80, :443" "203.0.113.5:12345" "plain"))
           [pcap.PortFilter 80; pcap.PortFilter 443] 49152
           {| pcap.IPPort_IP := [Byte.xcb; Byte.x00; Byte.x71; Byte.x05];
              pcap.IPPort_Port := 12345 |}
           {| crypto.CryptoMethod := "plain"; crypto.CryptoPassword := "" |}
           Stub.eth0 [] Stub.eth0 Stub.gateway).
  - reflexivity.
  - reflexivity.
  - discriminate.
  - discriminate.
  - simpl. lia.
  - repeat constructor.
  - reflexivity.
  - reflexivity.
  - reflexivity.
  - reflexivity.
  - reflexivity.
  - reflexivity.
Defined.

(** X12. The listen devices are looked up only after everything that can
    be checked without a device has gone through: without [-list-devices],
    on settings that are valid, with filter strings that all parse, and
    with a server and a method that parse. *)
Theorem listen_devices_looked_up_last (E : Env) (fuel : nat) (a : Flags)
  (names : list string) :
  In (CallFindListenDevs names) (trace (main E fuel a)) ->
  exists cfg serverIPPort c,
    argListDevs a = false
    /\ configuration E a = ret cfg
    /\ names = config.ListenDevs cfg
    /\ ~ invalidSettings cfg
    /\ ~ malformedFilter E cfg
    /\ ParseIPPort E (config.Server cfg) = Ok serverIPPort
    /\ cryptoParse E (config.Method cfg) (config.Password cfg) = Ok c.
Proof.
  intros Hin.
  destruct (main_shape E fuel a)
    as [(msg & Hm & Hmsg)
       | [(cfg & Hc & Hl & Hm)
         | [(cfg & msg & Hc & Hl & Hv & Hmsg & Hm)
           | [(cfg & fs & Hc & Hl & Hv & Hz & Hm)
             | (cfg & fs & up & Hc & Hl & Hv & Hr & Hm)]]]];
    rewrite Hm in Hin.
  - in_small_trace Hin.
  - apply listing_events in Hin.
    destruct Hin as [H|[H|[H|[H|(dev & H)]]]]; discriminate.
  - in_small_trace Hin.
  - in_small_trace Hin.
  - cbn [trace fst] in Hin. destruct Hin as [Hin | Hin]; [discriminate|].
    destruct (verifyParameters_passes E cfg fs Hv) as (Hf & Hsrv & Hport & Hall).
    assert (Hvalid : ~ invalidSettings cfg).
    { intros [H|[H|[H|H]]]; [contradiction | contradiction | lia | lia]. }
    assert (Hparsed : ~ malformedFilter E cfg).
    { intros (s & err & Hs & Herr).
      exact (Forall2_parsed_no_error E _ _ Hall s err Hs Herr). }
    destruct (resolveAndOpen_shape E cfg fs up)
      as [(msg & Hres & _)
         | [(ipport & c & msg & Hs & Hk & Hres & _)
           | [(ipport & c & dev & devs & msg & Hs & Hk & _ & Hres & _)
             | (ipport & c & dev & devs & upDev & gatewayDev & Hs & Hk & _ & _
                & [(err & _ & Hres) | (_ & Hres)])]]];
      rewrite Hres in Hin; cbn [trace fst] in Hin;
      try (apply announce_no_call in Hin; [|reflexivity]);
      cbn [deviceLookups app] in Hin.
    + in_small_trace Hin.
    + destruct Hin as [Hin|[Hin|[]]]; try discriminate.
      exists cfg, ipport, c. repeat (split; [assumption|]).
      split; [congruence|]. auto.
    + destruct Hin as [Hin|[Hin|[Hin|[]]]]; try discriminate.
      exists cfg, ipport, c. repeat (split; [assumption|]).
      split; [congruence|]. auto.
    + destruct Hin as [Hin|[Hin|[Hin|[Hin|[]]]]]; try discriminate.
      exists cfg, ipport, c. repeat (split; [assumption|]).
      split; [congruence|]. auto.
    + destruct Hin as [Hin|[Hin|[Hin|[]]]]; try discriminate.
      exists cfg, ipport, c. repeat (split; [assumption|]).
      split; [congruence|]. auto.
Qed.

Lemma listen_devices_looked_up_last_witness :
  exists cfg serverIPPort c,
    argListDevs (Stub.flags false "" ":80" "203.0.113.5:12345" "plain") = false
    /\ configuration (Stub.env 0 Stub.noFile (Ok [Stub.eth0]))
         (Stub.flags false "" ":80" "203.0.113.5:12345" "plain") = ret cfg
    /\ [] = config.ListenDevs cfg
    /\ ~ invalidSettings cfg
    /\ ~ malformedFilter (Stub.env 0 Stub.noFile (Ok [Stub.eth0])) cfg
    /\ ParseIPPort (Stub.env 0 Stub.noFile (Ok [Stub.eth0])) (config.Server cfg)
       = Ok serverIPPort
    /\ cryptoParse (Stub.env 0 Stub.noFile (Ok [Stub.eth0]))
         (config.Method cfg) (config.Password cfg) = Ok c.
Proof.
  apply (listen_devices_looked_up_last
           (Stub.env 0 Stub.noFile (Ok [Stub.eth0])) 1
           (Stub.flags false "" ":80" "203.0.113.5:12345" "plain") []).
  vm_compute. do 2 right. left. reflexivity.
Defined.

(** X13. The upstream and the gateway device are looked up only after the
    listen devices have been looked up and at least one has been found. *)
Theorem upstream_looked_up_after_listen_devices (E : Env) (fuel : nat)
  (a : Flags) (name : string) :
  In (CallFindUpstreamDevAndGatewayDev name) (trace (main E fuel a)) ->
  exists cfg dev devs,
    configuration E a = ret cfg
    /\ name = config.UpDev cfg
    /\ FindListenDevs E (config.ListenDevs cfg) = Ok (dev :: devs)
    /\ In (CallFindListenDevs (config.ListenDevs cfg)) (trace (main E fuel a)).
Proof.
  intros Hin.
  destruct (main_shape E fuel a)
    as [(msg & Hm & Hmsg)
       | [(cfg & Hc & Hl & Hm)
         | [(cfg & msg & Hc & Hl & Hv & Hmsg & Hm)
           | [(cfg & fs & Hc & Hl & Hv & Hz & Hm)
             | (cfg & fs & up & Hc & Hl & Hv & Hr & Hm)]]]];
    rewrite Hm in Hin |- *.
  - in_small_trace Hin.
  - apply listing_events in Hin.
    destruct Hin as [H|[H|[H|[H|(dev & H)]]]]; discriminate.
  - in_small_trace Hin.
  - in_small_trace Hin.
  - cbn [trace fst] in Hin |- *. destruct Hin as [Hin | Hin]; [discriminate|].
    destruct (resolveAndOpen_shape E cfg fs up)
      as [(msg & Hres & _)
         | [(ipport & c & msg & _ & _ & Hres & _)
           | [(ipport & c & dev & devs & msg & _ & _ & Hld & Hres & _)
             | (ipport & c & dev & devs & upDev & gatewayDev & _ & _ & Hld & _
                & [(err & _ & Hres) | (_ & Hres)])]]];
      rewrite Hres in Hin |- *; cbn [trace fst] in Hin |- *;
      try (apply announce_no_call in Hin; [|reflexivity]);
      cbn [deviceLookups app] in Hin.
    + in_small_trace Hin.
    + in_small_trace Hin.
    + destruct Hin as [Hin|[Hin|[Hin|[]]]]; try discriminate.
      exists cfg, dev, devs. repeat (split; [assumption || congruence|]).
      right. apply in_or_app. right. left. reflexivity.
    + destruct Hin as [Hin|[Hin|[Hin|[Hin|[]]]]]; try discriminate.
      exists cfg, dev, devs. repeat (split; [assumption || congruence|]).
      right. apply in_or_app. right. left. reflexivity.
    + destruct Hin as [Hin|[Hin|[Hin|[]]]]; try discriminate.
      exists cfg, dev, devs. repeat (split; [assumption || congruence|]).
      right. apply in_or_app. right. left. reflexivity.
Qed.

Lemma upstream_looked_up_after_listen_devices_witness :
  exists cfg dev devs,
    configuration (Stub.env 0 Stub.noFile (Ok [Stub.eth0]))
      (Stub.flags false "" ":80" "203.0.113.5:12345" "plain") = ret cfg
    /\ "" = config.UpDev cfg
    /\ FindListenDevs (Stub.env 0 Stub.noFile (Ok [Stub.eth0]))
         (config.ListenDevs cfg) = Ok (dev :: devs)
    /\ In (CallFindListenDevs (config.ListenDevs cfg))
         (trace (main (Stub.env 0 Stub.noFile (Ok [Stub.eth0])) 1
                   (Stub.flags false "" ":80" "203.0.113.5:12345" "plain"))).
Proof.
  apply (upstream_looked_up_after_listen_devices
           (Stub.env 0 Stub.noFile (Ok [Stub.eth0])) 1
           (Stub.flags false "" ":80" "203.0.113.5:12345" "plain") "").
  vm_compute. do 3 right. left. reflexivity.
Defined.

(** ** What the verification reports *)

Lemma parseFilters_first_error (E : Env) (parsed : list string)
  (strFilter : string) (rest : list string) (err : error)
  (acc : list pcap.Filter) :
  Forall (fun str => exists f, ParseFilter E str = Ok f) parsed ->
  ParseFilter E strFilter = Err err ->
  parseFilters E (parsed ++ strFilter :: rest)%list acc
  = ([LogFatalln ("parse filter " ++ strFilter ++ ": " ++ Error err)], Exit 1).
Proof.
  intros Hparsed Herr. revert acc.
  induction Hparsed as [|str parsed (f & Hf) _ IH]; intros acc;
    cbn [app parseFilters].
  - rewrite Herr. reflexivity.
  - rewrite Hf. apply IH.
Qed.

(** X14. What the verification of the parameters reports, and in which
    order, in a run without [-list-devices]: no filter before anything
    else; no server before any filter is parsed; then the first filter
    string that does not parse, named in the message together with the
    error of the parser, whatever the strings after it and the port are; and
    a port outside of 0..65535 only when all the filters parse.  Each time
    the run logs the verbosity and the one fatal message, and exits with the
    status 1. *)
Theorem refusals_in_order (E : Env) (fuel : nat) (a : Flags)
  (cfg : config.Config) :
  argListDevs a = false ->
  configuration E a = ret cfg ->
  (config.Filters cfg = [] ->
   main E fuel a
   = ([LogSetVerbose (config.Verbose cfg);
       LogFatalln "Please provide filters by -f [filters]."], Exit 1))
  /\ (config.Filters cfg <> [] ->
      config.Server cfg = "" ->
      main E fuel a
      = ([LogSetVerbose (config.Verbose cfg);
          LogFatalln "Please provide server by -s [address:port]."], Exit 1))
  /\ (forall parsed strFilter rest err,
        config.Server cfg <> "" ->
        config.Filters cfg = (parsed ++ strFilter :: rest)%list ->
        Forall (fun str => exists f, ParseFilter E str = Ok f) parsed ->
        ParseFilter E strFilter = Err err ->
        main E fuel a
        = ([LogSetVerbose (config.Verbose cfg);
            LogFatalln ("parse filter " ++ strFilter ++ ": " ++ Error err)],
           Exit 1))
  /\ (forall filters,
        config.Filters cfg <> [] ->
        config.Server cfg <> "" ->
        Forall2 (fun str f => ParseFilter E str = Ok f)
          (config.Filters cfg) filters ->
        config.UpPort cfg < 0 \/ 65535 < config.UpPort cfg ->
        main E fuel a
        = ([LogSetVerbose (config.Verbose cfg);
            LogFatalln ("parse upstream port " ++ fmt_d (config.UpPort cfg)
                        ++ ": out of range")],
           Exit 1)).
Proof.
  intros Hl Hc. rewrite (main_configured E fuel a cfg Hc).
  split; [|split; [|split]].
  - intros Hf. apply run_refused; [exact Hl|].
    unfold verifyParameters. rewrite Hf. reflexivity.
  - intros Hf Hs. apply run_refused; [exact Hl|].
    unfold verifyParameters.
    destruct (config.Filters cfg) as [|str0 strs]; [contradiction|].
    rewrite Hs. reflexivity.
  - intros parsed strFilter rest err Hs Hf Hparsed Herr.
    apply run_refused; [exact Hl|].
    unfold verifyParameters. rewrite Hf.
    rewrite (parseFilters_first_error E parsed strFilter rest err [] Hparsed Herr).
    destruct (String.eqb_spec (config.Server cfg) ""); [contradiction|].
    destruct parsed; reflexivity.
  - intros filters Hf Hs Hall Hport.
    apply run_refused; [exact Hl|].
    unfold verifyParameters.
    rewrite (parseFilters_ok E _ filters [] Hall).
    destruct (config.Filters cfg) as [|str0 strs]; [contradiction|].
    destruct (String.eqb_spec (config.Server cfg) ""); [contradiction|].
    cbn [List.length Nat.leb]. run_steps.
    assert (Hout : (config.UpPort cfg <? 0) || (config.UpPort cfg >=? 65536) = true).
    { apply orb_true_iff. destruct Hport as [Hlo | Hhi].
      - left. apply Z.ltb_lt. exact Hlo.
      - right. apply Z.geb_le. lia. }
    rewrite Hout. reflexivity.
Qed.

Lemma refusals_in_order_witness :
  main (Stub.env 0 Stub.noFile (Ok [Stub.eth0])) 0
    (Stub.flags false "" ":80, eth0 ,:x" "203.0.113.5:12345" "plain")
  = ([LogSetVerbose false; LogFatalln "parse filter eth0: invalid filter"],
     Exit 1).
Proof.
  apply (proj1 (proj2 (proj2
           (refusals_in_order (Stub.env 0 Stub.noFile (Ok [Stub.eth0])) 0
              (Stub.flags false "" ":80, eth0 ,:x" "203.0.113.5:12345" "plain")
              (flagsConfig
                 (Stub.flags false "" ":80, eth0 ,:x" "203.0.113.5:12345" "plain"))
              eq_refl eq_refl)))
           [":80"] "eth0" [":x"] (errorsNew "invalid filter")).
  - discriminate.
  - reflexivity.
  - constructor; [eexists; reflexivity | constructor].
  - reflexivity.
Defined.

(* ================================================================== *)
(** * The loop and the generator; the messages of the fatal errors *)
(* ================================================================== *)




Lemma parseFilters_reports (E : Env) (strs : list string) (acc : list pcap.Filter) :
  (exists fs, parseFilters E strs acc = ret (acc ++ fs)%list)
  \/ (exists strFilter err,
        In strFilter strs /\ ParseFilter E strFilter = Err err
        /\ parseFilters E strs acc
           = ([LogFatalln ("parse filter " ++ strFilter ++ ": " ++ Error err)],
              Exit 1)).
Proof.
  revert acc. induction strs as [|str rest IH]; intros acc; cbn [parseFilters].
  - left. exists []. rewrite app_nil_r. reflexivity.
  - destruct (ParseFilter E str) as [f|err] eqn:Hp.
    + destruct (IH (acc ++ [f])%list) as [(fs & Heq) | (s & err & Hin & Herr & Heq)].
      * left. exists (f :: fs). rewrite Heq, <- app_assoc. reflexivity.
      * right. exists s, err. split; [right; exact Hin | auto].
    + right. exists str, err. split; [left; reflexivity|].
      split; [exact Hp | reflexivity].
Qed.

(** The verification passes or reports a defect that the configuration
    has, in the words that the program has for it. *)
Lemma verifyParameters_reports (E : Env) (cfg : config.Config) :
  (exists filters, verifyParameters E cfg = ret filters)
  \/ (exists msg,
        verifyParameters E cfg = ([LogFatalln msg], Exit 1)
        /\ describesRefusal E cfg msg).
Proof.
  unfold verifyParameters, describesRefusal.
  destruct (config.Filters cfg) as [|str0 strs] eqn:Hf.
  { right. eexists. split; [reflexivity|]. left. auto. }
  cbn [List.length Nat.leb]. rewrite bind_ret_l.
  destruct (String.eqb_spec (config.Server cfg) "") as [Hs|Hs].
  { right. eexists. split; [reflexivity|]. right. left. auto. }
  rewrite bind_ret_l.
  destruct (parseFilters_reports E (str0 :: strs) [])
    as [(fs & Heq) | (s & err & Hin & Herr & Heq)]; rewrite Heq.
  - rewrite bind_ret_l.
    destruct (Z.ltb_spec (config.UpPort cfg) 0) as [Hlo|Hlo].
    { right. eexists. split; [reflexivity|]. do 3 right. split; [lia | reflexivity]. }
    destruct (Z.geb_spec (config.UpPort cfg) 65536) as [Hhi|Hhi].
    { right. eexists. split; [reflexivity|]. do 3 right. split; [lia | reflexivity]. }
    left. exists fs. reflexivity.
  - right. eexists. split; [reflexivity|]. do 2 right. left.
    exists s, err. auto.
Qed.

Lemma verifyParameters_describes (E : Env) (cfg : config.Config) :
  invalidSettings cfg \/ malformedFilter E cfg ->
  exists msg,
    verifyParameters E cfg = ([LogFatalln msg], Exit 1)
    /\ describesRefusal E cfg msg.
Proof.
  intros Hbad.
  destruct (verifyParameters_refuses E cfg Hbad) as (msg' & Hv & _).
  destruct (verifyParameters_reports E cfg) as [(fs & Hret) | Hrep];
    [|exact Hrep].
  rewrite Hv in Hret. discriminate.
Qed.

(** An error of resolution is reported in the words that the program has
    for a step that does fail. *)
Lemma resolveAndOpen_describes (E : Env) (cfg : config.Config)
  (filters : list pcap.Filter) (UpPort : Z) :
  resolutionError E cfg ->
  exists t msg,
    resolveAndOpen E cfg filters UpPort = ((t ++ [LogFatalln msg])%list, Exit 1)
    /\ describesResolution E cfg msg.
Proof.
  unfold resolutionError, unknownMethod, describesResolution, resolveAndOpen.
  destruct (ParseIPPort E (config.Server cfg)) as [ipport|err].
  2:{ intros _. run_steps. exists []. eexists. split; [reflexivity|].
      left. exists err. split; reflexivity. }
  destruct (cryptoParse E (config.Method cfg) (config.Password cfg)) as [c|err].
  2:{ intros _. run_steps. exists []. eexists. split; [reflexivity|].
      right. left. exists err. split; reflexivity. }
  destruct (announce_quiet filters UpPort ipport) as (Ha & _).
  unfold findDevices.
  destruct (FindListenDevs E (config.ListenDevs cfg)) as [[|dev devs]|err].
  - intros _. run_steps. rewrite Ha. run_steps. cbn [List.length Nat.leb]. run_steps.
    eexists (_ ++ [_])%list. eexists.
    split; [rewrite <- app_assoc; reflexivity|].
    do 3 right. left. split; reflexivity.
  - cbn [List.length Nat.leb].
    destruct (FindUpstreamDevAndGatewayDev E (config.UpDev cfg))
      as [[[upDev|] [gatewayDev|]]|err].
    + intros [(e & H)|[(e & H)|[(e & H)|[H|[(e & H)|[(g & H)|(u & H)]]]]]];
        discriminate.
    + intros _. run_steps. rewrite Ha. run_steps.
      eexists (_ ++ [_; _])%list. eexists.
      split; [rewrite <- app_assoc; reflexivity|].
      do 7 right. exists upDev. split; reflexivity.
    + intros _. run_steps. rewrite Ha. run_steps.
      eexists (_ ++ [_; _])%list. eexists.
      split; [rewrite <- app_assoc; reflexivity|].
      do 6 right. left. exists gatewayDev. split; reflexivity.
    + intros _. run_steps. rewrite Ha. run_steps.
      eexists (_ ++ [_; _])%list. eexists.
      split; [rewrite <- app_assoc; reflexivity|].
      do 5 right. left. split; reflexivity.
    + intros _. run_steps. rewrite Ha. run_steps.
      eexists (_ ++ [_; _])%list. eexists.
      split; [rewrite <- app_assoc; reflexivity|].
      do 4 right. left. exists err. split; reflexivity.
  - intros _. run_steps. rewrite Ha. run_steps.
    eexists (_ ++ [_])%list. eexists.
    split; [rewrite <- app_assoc; reflexivity|].
    do 2 right. left. exists err. split; reflexivity.
Qed.

(** C7, as the code has it.  With [-list-devices], a run in which the
    devices are enumerated, with success, logs the header and one line for
    each device, in order, and exits with the status 0.  Every error of
    configuration or of resolution that the run comes to ends the process in
    the exit status 1 with a message that describes it, logged last: a
    configuration file that does not parse and, with [-list-devices], an
    enumeration that fails, with the path or the step and the error of the
    collaborator; without [-list-devices], invalid settings or a filter
    string that does not parse, with the words that the program has for a
    defect that the configuration has; and, without [-list-devices] and in
    every run that leaves the loop choosing the upstream port, an error of
    resolution (server, method, listen devices, upstream or gateway device),
    with the words for a defect or for a step that does fail. *)
Theorem listing_exits_0_and_errors_are_described (E : Env) (a : Flags) :
  (argListDevs a = true ->
   forall fuel devs,
     In CallFindAllDevs (trace (main E fuel a)) ->
     FindAllDevs E = Ok devs ->
     exists verbose,
       main E fuel a
       = (([LogSetVerbose verbose; LogInfoln devicesHeader; CallFindAllDevs]
           ++ map LogInfoDevice devs)%list, Exit 0))
  /\ (forall err,
        argConfig a <> "" ->
        ParseFile E (argConfig a) = Err err ->
        forall fuel,
          main E fuel a
          = ([LogFatalln ("parse config file " ++ argConfig a ++ ": " ++ Error err)],
             Exit 1))
  /\ (forall cfg err,
        argListDevs a = true ->
        configuration E a = ret cfg ->
        FindAllDevs E = Err err ->
        forall fuel,
          main E fuel a
          = ([LogSetVerbose (config.Verbose cfg); LogInfoln devicesHeader;
              CallFindAllDevs; LogFatalln ("list devices: " ++ Error err)],
             Exit 1))
  /\ (forall cfg,
        argListDevs a = false ->
        configuration E a = ret cfg ->
        invalidSettings cfg \/ malformedFilter E cfg ->
        forall fuel,
          exists msg,
            main E fuel a
            = ([LogSetVerbose (config.Verbose cfg); LogFatalln msg], Exit 1)
            /\ describesRefusal E cfg msg)
  /\ (forall cfg,
        argListDevs a = false ->
        configuration E a = ret cfg ->
        resolutionError E cfg ->
        leavesPortLoop E a ->
        exists fuel, forall fuel', (fuel <= fuel')%nat ->
          endsDescribing
            (fun msg => describesRefusal E cfg msg \/ describesResolution E cfg msg)
            (main E fuel' a)).
Proof.
  split; [|split; [|split; [|split]]].
  - intros Hl fuel devs Hcall Hdevs.
    destruct (configuration_cases E a) as [(cfg & Hc) | (msg & err & Hc & _)].
    + exists (config.Verbose cfg).
      rewrite (main_configured E fuel a cfg Hc), (run_listing E fuel a cfg Hl).
      unfold listing. rewrite Hdevs. reflexivity.
    + rewrite (main_not_configured E fuel a msg Hc) in Hcall.
      destruct Hcall as [Hcall | []]. discriminate.
  - intros err Hfile Hparse fuel. apply main_not_configured.
    unfold configuration.
    destruct (String.eqb_spec (argConfig a) ""); [contradiction|].
    cbn [negb]. rewrite Hparse. reflexivity.
  - intros cfg err Hl Hc Hdevs fuel.
    rewrite (main_configured E fuel a cfg Hc), (run_listing E fuel a cfg Hl).
    unfold listing. rewrite Hdevs. reflexivity.
  - intros cfg Hl Hc Hbad fuel.
    destruct (verifyParameters_describes E cfg Hbad) as (msg & Hv & Hdesc).
    exists msg. split; [|exact Hdesc].
    rewrite (main_configured E fuel a cfg Hc).
    apply run_refused; assumption.
  - intros cfg Hl Hc Herr Hleaves.
    destruct (verifyParameters_reports E cfg)
      as [(filters & Hv) | (msg & Hv & Hdesc)].
    + destruct (resolving_from E a cfg filters Hl Hc Hv Hleaves)
        as (fuel & UpPort & Hmain).
      destruct (resolveAndOpen_describes E cfg filters UpPort Herr)
        as (t & msg & Hres & Hdesc).
      exists fuel. intros fuel' Hle. rewrite (Hmain fuel' Hle), Hres.
      exists (LogSetVerbose (config.Verbose cfg) :: t), msg.
      split; [reflexivity | right; exact Hdesc].
    + exists O. intros fuel' _.
      rewrite (main_configured E fuel' a cfg Hc).
      rewrite (run_refused E fuel' a cfg Hl msg Hv).
      exists [LogSetVerbose (config.Verbose cfg)], msg.
      split; [reflexivity | left; exact Hdesc].
Qed.

Lemma listing_exits_0_and_errors_are_described_witness :
  (exists verbose,
     main (Stub.env 0 Stub.noFile (Ok [Stub.eth0; Stub.gateway])) 0
       (Stub.flags true "" "" "" "plain")
     = (([LogSetVerbose verbose; LogInfoln devicesHeader; CallFindAllDevs]
         ++ map LogInfoDevice [Stub.eth0; Stub.gateway])%list, Exit 0))
  /\ (forall fuel,
        main (Stub.env 0 Stub.noFile (Ok [Stub.eth0])) fuel
          (Stub.flags true "ikago.json" "" "" "plain")
        = ([LogFatalln "parse config file ikago.json: no such file"], Exit 1))
  /\ (forall fuel,
        main (Stub.env 0 Stub.noFile (Err (errorsNew "permission denied"))) fuel
          (Stub.flags true "" "" "" "plain")
        = ([LogSetVerbose false; LogInfoln devicesHeader; CallFindAllDevs;
            LogFatalln "list devices: permission denied"], Exit 1))
  /\ (forall fuel,
        exists msg,
          main (Stub.env 0 Stub.noFile (Ok [Stub.eth0])) fuel
            (Stub.flags false "" ":80" "" "plain")
          = ([LogSetVerbose false; LogFatalln msg], Exit 1)
          /\ describesRefusal (Stub.env 0 Stub.noFile (Ok [Stub.eth0]))
               (flagsConfig (Stub.flags false "" ":80" "" "plain")) msg)
  /\ (exists fuel, forall fuel', (fuel <= fuel')%nat ->
        endsDescribing
          (fun msg =>
             describesRefusal (Stub.env 0 Stub.noFile (Ok [Stub.eth0]))
               (flagsConfig (Stub.flags false "" ":80" "nowhere" "plain")) msg
             \/ describesResolution (Stub.env 0 Stub.noFile (Ok [Stub.eth0]))
                  (flagsConfig (Stub.flags false "" ":80" "nowhere" "plain")) msg)
          (main (Stub.env 0 Stub.noFile (Ok [Stub.eth0])) fuel'
             (Stub.flags false "" ":80" "nowhere" "plain"))).
Proof.
  split; [|split; [|split; [|split]]].
  - apply (proj1 (listing_exits_0_and_errors_are_described
                    (Stub.env 0 Stub.noFile (Ok [Stub.eth0; Stub.gateway]))
                    (Stub.flags true "" "" "" "plain"))).
    + reflexivity.
    + simpl. right. right. left. reflexivity.
    + reflexivity.
  - apply (proj1 (proj2 (listing_exits_0_and_errors_are_described
                    (Stub.env 0 Stub.noFile (Ok [Stub.eth0]))
                    (Stub.flags true "ikago.json" "" "" "plain")))
             (errorsNew "no such file")).
    + discriminate.
    + reflexivity.
  - apply (proj1 (proj2 (proj2 (listing_exits_0_and_errors_are_described
                    (Stub.env 0 Stub.noFile (Err (errorsNew "permission denied")))
                    (Stub.flags true "" "" "" "plain"))))
             (flagsConfig (Stub.flags true "" "" "" "plain"))
             (errorsNew "permission denied")).
    + reflexivity.
    + reflexivity.
    + reflexivity.
  - apply (proj1 (proj2 (proj2 (proj2 (listing_exits_0_and_errors_are_described
                    (Stub.env 0 Stub.noFile (Ok [Stub.eth0]))
                    (Stub.flags false "" ":80" "" "plain")))))
             (flagsConfig (Stub.flags false "" ":80" "" "plain"))).
    + reflexivity.
    + reflexivity.
    + left. right. left. reflexivity.
  - apply (proj2 (proj2 (proj2 (proj2 (listing_exits_0_and_errors_are_described
                    (Stub.env 0 Stub.noFile (Ok [Stub.eth0]))
                    (Stub.flags false "" ":80" "nowhere" "plain")))))
             (flagsConfig (Stub.flags false "" ":80" "nowhere" "plain"))).
    + reflexivity.
    + reflexivity.
    + left. eexists. reflexivity.
    + exists 1%nat. vm_compute. discriminate.
Defined.

Example unparsable_server_described :
  main (Stub.env 0 Stub.noFile (Ok [Stub.eth0])) 1
    (Stub.flags false "" ":80" "nowhere" "plain")
  = ([LogSetVerbose false; LogFatalln "parse server nowhere: invalid ip port"],
     Exit 1).
Proof. reflexivity. Qed.

(** C7 as stated fails twice.  When the filters take every port of
    49152..65535 and the upstream port is left to the program, a server
    that does not parse (an error of resolution) is never reported and the
    process never exits: the loop that chooses the port does not end.  And
    with [-list-devices] a server that does not parse is not reported
    either: the devices are listed and the process exits with the
    status 0. *)
Lemma resolution_error_not_reported :
  (argListDevs (Stub.flags false "ikago.json" "" "" "plain") = false
   /\ configuration
        (Stub.env 0 (Ok (Stub.coveringConfig "nowhere" "plain")) (Ok [Stub.eth0]))
        (Stub.flags false "ikago.json" "" "" "plain")
      = ret (Stub.coveringConfig "nowhere" "plain")
   /\ resolutionError
        (Stub.env 0 (Ok (Stub.coveringConfig "nowhere" "plain")) (Ok [Stub.eth0]))
        (Stub.coveringConfig "nowhere" "plain")
   /\ forall fuel,
        main (Stub.env 0 (Ok (Stub.coveringConfig "nowhere" "plain")) (Ok [Stub.eth0]))
          fuel (Stub.flags false "ikago.json" "" "" "plain")
        = ([LogSetVerbose false], Spinning))
  /\ (resolutionError (Stub.env 0 Stub.noFile (Ok [Stub.eth0]))
        (flagsConfig (Stub.flags true "" ":80" "nowhere" "plain"))
      /\ forall fuel,
           main (Stub.env 0 Stub.noFile (Ok [Stub.eth0])) fuel
             (Stub.flags true "" ":80" "nowhere" "plain")
           = ([LogSetVerbose false; LogInfoln devicesHeader; CallFindAllDevs;
               LogInfoDevice Stub.eth0], Exit 0)).
Proof.
  split; [split; [|split; [|split]] | split].
  - reflexivity.
  - reflexivity.
  - left. eexists. reflexivity.
  - intros fuel. apply coveringConfig_spins.
  - left. eexists. reflexivity.
  - intros fuel. reflexivity.
Qed.

